(** * Mega Data Factory: partitioned Parquet writer and metrics reporter

    A shallow embedding of
      - [mega_data_factory/writers/parquet_writer.py] (class
        [ParquetDataWriter]: partition-key extraction, key sanitization,
        grouping of a batch into partitions, writing of one partition), and
      - [mega_data_factory/framework/metrics/reporter.py] (class
        [MetricsReporter]: loading of the three metrics tiers, choice of the
        HTML renderer),
    together with the properties of these functions.

    Conventions.  A Python [str] is a Rocq [string] whose characters are the
    code points 0..255.  A Python exception is a constructor of [exn]; a
    computation that can raise returns a [result].  Library functions that
    live outside the repository ([json.loads], the pandas and plotly calls)
    are section variables. *)

From Stdlib Require Import String Ascii List ZArith NArith Lia Bool.
From Stdlib Require Import DecimalString Permutation.
Import ListNotations.
Open Scope string_scope.

(* ===================================================================== *)
(** * Python values and built-ins                                         *)
(* ===================================================================== *)

Module Py.

(** The exceptions that occur in the embedded code. *)
Inductive exn : Type :=
| JSONDecodeError
| AttributeError
| KeyError
| ImportError
| OtherError (name : string).

Inductive result (A : Type) : Type :=
| Ok (a : A)
| Raise (e : exn).
Arguments Ok {A} a.
Arguments Raise {A} e.

Definition bind {A B : Type} (m : result A) (k : A -> result B) : result B :=
  match m with
  | Ok a => k a
  | Raise e => Raise e
  end.

(** [try: body / except (classes): handler]. *)
Definition try_except {A : Type}
    (body : result A) (classes : exn -> bool) (handler : result A) : result A :=
  match body with
  | Ok a => Ok a
  | Raise e => if classes e then handler else Raise e
  end.

(** A float is seen by the embedded code through two observations only:
    its truth value ([x != 0.0]) and its printed form ([repr(x)]). *)
Record PyFloat : Type := { float_nonzero : bool; float_repr : string }.

(** The values a record holds.  A dict is kept in insertion order with
    string keys. *)
#[local] Set Warnings "-register-all".
Inductive pyval : Type :=
| VNone
| VBool (b : bool)
| VInt (n : Z)
| VFloat (f : PyFloat)
| VStr (s : string)
| VList (items : list pyval)
| VDict (items : list (string * pyval)).

Definition dict (V : Type) : Type := list (string * V).
Definition record : Type := dict pyval.

(** [key in d], [d[key]] as a lookup, and [d.get(key)]. *)
Fixpoint dict_lookup {V : Type} (d : dict V) (key : string) : option V :=
  match d with
  | [] => None
  | (k, v) :: rest => if String.eqb k key then Some v else dict_lookup rest key
  end.

Definition dict_contains {V : Type} (d : dict V) (key : string) : bool :=
  match dict_lookup d key with Some _ => true | None => false end.

Definition dict_get (d : dict pyval) (key : string) : pyval :=
  match dict_lookup d key with Some v => v | None => VNone end.

(** [d[key] = v]: replaces the value of an existing key in place, appends a
    new key at the end. *)
Fixpoint dict_setitem {V : Type} (d : dict V) (key : string) (v : V) : dict V :=
  match d with
  | [] => [(key, v)]
  | (k, old) :: rest =>
      if String.eqb k key then (k, v) :: rest
      else (k, old) :: dict_setitem rest key v
  end.

(** [value.get(part)] on an arbitrary object: only a dict has the method. *)
Definition method_get (value : pyval) (part : string) : result pyval :=
  match value with
  | VDict d => Ok (dict_get d part)
  | _ => Raise AttributeError
  end.

(** Truth value of an object ([if value], [bool(value)]). *)
Definition truthy (v : pyval) : bool :=
  match v with
  | VNone => false
  | VBool b => b
  | VInt n => negb (n =? 0)%Z
  | VFloat f => float_nonzero f
  | VStr s => negb (String.eqb s "")
  | VList items => match items with [] => false | _ => true end
  | VDict items => match items with [] => false | _ => true end
  end.

(** Truth value of an optional string attribute ([if self.partition_by]):
    false for [None] and for the empty string. *)
Definition truthy_opt (o : option string) : bool :=
  match o with
  | None => false
  | Some s => negb (String.eqb s "")
  end.

(** ** Characters *)

Definition code (c : ascii) : N := N_of_ascii c.

Definition between (lo hi : N) (c : ascii) : bool :=
  ((lo <=? code c) && (code c <=? hi))%N.

(** [c.isalnum()] on the code points 0..255: letters, decimal digits, and
    the characters with a digit or numeric value. *)
Definition isalnum (c : ascii) : bool :=
  between 48 57 c || between 65 90 c || between 97 122 c
  || between 170 170 c              (* feminine ordinal indicator *)
  || between 178 179 c              (* superscript two, three *)
  || between 181 181 c              (* micro sign *)
  || between 185 186 c              (* superscript one, masculine ordinal *)
  || between 188 190 c              (* vulgar fractions *)
  || between 192 214 c || between 216 246 c || between 248 255 c.

(** [c.isprintable()] on the code points 0..255. *)
Definition isprintable (c : ascii) : bool :=
  between 32 126 c || (between 161 255 c && negb (between 173 173 c)).

#[global] Arguments isalnum c : simpl never.
#[global] Arguments isprintable c : simpl never.

(** [c in s] for a one-character [c]. *)
Definition char_in (c : ascii) (s : string) : bool :=
  existsb (Ascii.eqb c) (list_ascii_of_string s).

Definition chr (c : ascii) : string := String c EmptyString.

(** [sep.join(pieces)]. *)
Definition join (sep : string) (pieces : list string) : string :=
  String.concat sep pieces.

(** [s.split(sep)] for a one-character separator: never returns an empty
    list, and keeps empty pieces. *)
Fixpoint split (sep : ascii) (s : string) : list string :=
  match s with
  | EmptyString => [EmptyString]
  | String c rest =>
      if Ascii.eqb c sep then EmptyString :: split sep rest
      else match split sep rest with
           | [] => [chr c]
           | piece :: pieces => String c piece :: pieces
           end
  end.

(** ** [str] and [repr] *)

(** The decimal digits of an integer.  The interpreter's limit on the
    number of digits ([ValueError] past 4300 digits) is not modelled. *)
Definition str_of_int (n : Z) : string := NilZero.string_of_int (Z.to_int n).

Definition hex_digit (n : N) : ascii :=
  if (n <? 10)%N then ascii_of_N (48 + n) else ascii_of_N (87 + n).

Definition hex_escape (c : ascii) : string :=
  "\x" ++ chr (hex_digit (code c / 16)) ++ chr (hex_digit (code c mod 16)).

Definition repr_char (quote c : ascii) : string :=
  if Ascii.eqb c quote || Ascii.eqb c "\"%char then String "\"%char (chr c)
  else if Ascii.eqb c "009"%char then "\t"
  else if Ascii.eqb c "010"%char then "\n"
  else if Ascii.eqb c "013"%char then "\r"
  else if isprintable c then chr c
  else hex_escape c.

(** [repr(s)] of a string: single quotes, unless the string holds a single
    quote and no double quote. *)
Definition repr_str (s : string) : string :=
  let quote :=
    if char_in "'"%char s && negb (char_in "034"%char s)
    then "034"%char else "'"%char in
  chr quote
  ++ join "" (map (repr_char quote) (list_ascii_of_string s))
  ++ chr quote.

Fixpoint repr (v : pyval) : string :=
  match v with
  | VNone => "None"
  | VBool true => "True"
  | VBool false => "False"
  | VInt n => str_of_int n
  | VFloat f => float_repr f
  | VStr s => repr_str s
  | VList items => "[" ++ join ", " (map repr items) ++ "]"
  | VDict items =>
      "{"
      ++ join ", "
           (map (fun kv => match kv with
                           | (k, x) => repr_str k ++ ": " ++ repr x
                           end) items)
      ++ "}"
  end.

(** [str(v)]: a string is its own text, everything else prints as [repr]. *)
Definition str (v : pyval) : string :=
  match v with
  | VStr s => s
  | _ => repr v
  end.

(** [s * n]: [n] copies of [s]. *)
Fixpoint str_mul (s : string) (n : nat) : string :=
  match n with
  | O => EmptyString
  | S n' => s ++ str_mul s n'
  end.

(** [s.rstrip(c)] for a one-character [c]: the trailing run of [c] is
    dropped. *)
Fixpoint rstrip (c : ascii) (s : string) : string :=
  match s with
  | EmptyString => EmptyString
  | String a rest =>
      match rstrip c rest with
      | EmptyString => if Ascii.eqb a c then EmptyString else chr a
      | kept => String a kept
      end
  end.

End Py.

Import Py.

Notation "x <- m ;; k" := (bind m (fun x => k))
  (at level 61, m at next level, right associativity).

(* ===================================================================== *)
(** * writers/parquet_writer.py                                           *)
(* ===================================================================== *)

Module ParquetWriter.

(** The attributes of a [ParquetDataWriter] that its methods read.
    [full_output_path] is [root_path/table_name], as [__init__] leaves it. *)
Record ParquetDataWriter : Type := {
  full_output_path : string;
  partition_by : option string;
  partition_key_extractor : option string
}.

(** The sink: the directories made with [fs.makedirs] and the Parquet files
    written, each recorded as the directory it is written in and the list of
    records handed to [pa.Table.from_pylist] for it.  The file's own name,
    [part_<timestamp>_<uuid>.parquet], comes from the clock and the random
    generator and is fresh for every call.  What pyarrow makes of the
    records (the columns and rows of the table, the bytes of the file) and
    the exceptions it raises on records it cannot convert are outside the
    model. *)
Record FileSystem : Type := {
  fs_dirs : list string;
  fs_files : list (string * list record)
}.

(** What a method of the writer can read and change. *)
Record World : Type := {
  self : ParquetDataWriter;
  fs : FileSystem
}.

(** A method: may change the world, and returns or raises. *)
Definition M (A : Type) : Type := World -> result A * World.

Definition ret {A : Type} (a : A) : M A := fun w => (Ok a, w).

Definition mbind {A B : Type} (m : M A) (k : A -> M B) : M B :=
  fun w =>
    match m w with
    | (Ok a, w') => k a w'
    | (Raise e, w') => (Raise e, w')
    end.

Definition lift {A : Type} (r : result A) : M A := fun w => (r, w).

Definition get_self : M ParquetDataWriter := fun w => (Ok (self w), w).

(** [self.fs.makedirs(path, exist_ok=True)]: a directory that exists is
    left as it is. *)
Definition with_dir (dirs : list string) (path : string) : list string :=
  if existsb (String.eqb path) dirs then dirs else (dirs ++ [path])%list.

Definition makedirs (path : string) : M unit :=
  fun w =>
    (Ok tt, {| self := self w;
               fs := {| fs_dirs := with_dir (fs_dirs (fs w)) path;
                        fs_files := fs_files (fs w) |} |}).

(** [with self.fs.open(<fresh name in directory>, "wb") as f:
       pq.write_table(pa.Table.from_pylist(data), f, ...)]: the call is
    recorded, with the records it is given. *)
Definition write_table (directory : string) (data : list record) : M unit :=
  fun w =>
    (Ok tt, {| self := self w;
               fs := {| fs_dirs := fs_dirs (fs w);
                        fs_files := (fs_files (fs w) ++ [(directory, data)])%list |} |}).

(** [for x in xs: body(x)]. *)
Fixpoint for_each {A : Type} (xs : list A) (body : A -> M unit) : M unit :=
  match xs with
  | [] => ret tt
  | x :: rest => mbind (body x) (fun _ => for_each rest body)
  end.

(** The sanitization expression of [write]: the join, with an empty
    separator, of [c if c.isalnum() or c in "-_" else "_"] for every [c] of
    [partition_key]. *)
Definition sanitize (partition_key : string) : string :=
  join ""
    (map (fun c => if isalnum c || char_in c "-_" then chr c else "_")
         (list_ascii_of_string partition_key)).

(** [partitions[safe_key].append(record)]. *)
Fixpoint append_at (partitions : dict (list record)) (safe_key : string)
    (r : record) : result (dict (list record)) :=
  match partitions with
  | [] => Raise KeyError
  | (k, rows) :: rest =>
      if String.eqb k safe_key then Ok ((k, (rows ++ [r])%list) :: rest)
      else rest' <- append_at rest safe_key r ;; Ok ((k, rows) :: rest')
  end.

Section Writer.

(** [json.loads] on a string: the parsed value, or the exception raised. *)
Variable json_loads : string -> result pyval.

(** How one turn of the loop over the path segments ends: with the next
    [value], or with a [return] out of the method. *)
Inductive flow : Type :=
| Next (value : pyval)
| Return (key : string).

Definition except_json (e : exn) : bool :=
  match e with
  | JSONDecodeError | AttributeError => true
  | _ => false
  end.

(** The body of [for part in parts]. *)
Definition walk_step (value : pyval) (part : string) : result flow :=
  let after :=
    match value with
    | VDict d => Ok (Next (dict_get d part))
    | VStr s =>
        try_except
          (parsed <- json_loads s ;;
           got <- method_get parsed part ;;
           Ok (Next got))
          except_json
          (Ok (Return "unknown"))
    | _ => Ok (Return "unknown")
    end in
  match after with
  | Ok (Next VNone) => Ok (Return "unknown")
  | other => other
  end.

Fixpoint walk (parts : list string) (value : pyval) : result flow :=
  match parts with
  | [] => Ok (Next value)
  | part :: rest =>
      match walk_step value part with
      | Ok (Next value') => walk rest value'
      | other => other
      end
  end.

Definition _extract_partition_key (w : ParquetDataWriter) (r : record)
    : result string :=
  if negb (truthy_opt (partition_by w)) then Ok "default"
  else if truthy_opt (partition_key_extractor w) then
    let parts :=
      split "."%char
        (match partition_key_extractor w with Some p => p | None => "" end) in
    match walk parts (VDict r) with
    | Ok (Next value) => Ok (if truthy value then str value else "unknown")
    | Ok (Return key) => Ok key
    | Raise e => Raise e
    end
  else
    match dict_get r (match partition_by w with Some c => c | None => "" end) with
    | VNone => Ok "unknown"
    | value => Ok (str value)
    end.

(** The grouping loop of [write]: [for record in data: ...]. *)
Fixpoint group (w : ParquetDataWriter) (data : list record)
    (partitions : dict (list record)) : result (dict (list record)) :=
  match data with
  | [] => Ok partitions
  | r :: rest =>
      partition_key <- _extract_partition_key w r ;;
      let safe_key := sanitize partition_key in
      let partitions :=
        if negb (dict_contains partitions safe_key)
        then dict_setitem partitions safe_key []
        else partitions in
      partitions <- append_at partitions safe_key r ;;
      group w rest partitions
  end.

Definition _write_partition (data : list record) (partition_key : option string)
    : M unit :=
  match data with
  | [] => ret tt
  | _ =>
      mbind get_self (fun w =>
      mbind
        (if truthy_opt partition_key then
           let partition_path :=
             full_output_path w ++ "/"
             ++ match partition_by w with Some c => c | None => "None" end
             ++ "="
             ++ match partition_key with Some k => k | None => "" end in
           mbind (makedirs partition_path) (fun _ => ret partition_path)
         else ret (full_output_path w))
        (fun partition_path => write_table partition_path data))
  end.

Definition write (data : list record) : M unit :=
  match data with
  | [] => ret tt
  | _ =>
      mbind get_self (fun w =>
      if truthy_opt (partition_by w) then
        mbind (lift (group w data []))
          (fun partitions =>
             for_each partitions
               (fun item => _write_partition (snd item) (Some (fst item))))
      else _write_partition data None)
  end.

(** ** Reference definitions, written from the specification *)

(** A value seen as a mapping: a mapping itself, or a string that parses as
    structured data holding a mapping. *)
Definition as_mapping (v : pyval) : option (dict pyval) :=
  match v with
  | VDict d => Some d
  | VStr s => match json_loads s with Ok (VDict d) => Some d | _ => None end
  | _ => None
  end.

Definition is_none (v : pyval) : bool :=
  match v with VNone => true | _ => false end.

(** Resolution of a dotted path: every segment is looked up in the current
    value seen as a mapping, and has to be present with a value other than
    [None]. *)
Fixpoint resolve (parts : list string) (v : pyval) : option pyval :=
  match parts with
  | [] => Some v
  | part :: rest =>
      match as_mapping v with
      | None => None
      | Some d =>
          match dict_lookup d part with
          | None => None
          | Some v1 => if is_none v1 then None else resolve rest v1
          end
      end
  end.

(** The allowed characters of a sanitized key. *)
Definition allowed (c : ascii) : bool :=
  isalnum c || Ascii.eqb c "-"%char || Ascii.eqb c "_"%char.

Definition safe_char (c : ascii) : ascii :=
  if allowed c then c else "_"%char.

(** The sanitized key of a record, when the extraction returns. *)
Definition safe_key_of (w : ParquetDataWriter) (r : record) : option string :=
  match _extract_partition_key w r with
  | Ok key => Some (sanitize key)
  | Raise _ => None
  end.

Definition has_key (w : ParquetDataWriter) (k : string) (r : record) : bool :=
  match safe_key_of w r with
  | Some k' => String.eqb k' k
  | None => false
  end.

(** The directory [_write_partition] writes a group to. *)
Definition partition_dir (w : ParquetDataWriter) (k : string) : string :=
  full_output_path w ++ "/"
  ++ match partition_by w with Some c => c | None => "None" end
  ++ "=" ++ k.

(** Where the group of key [k] is written: [_write_partition] tests the
    truth value of the key, and an empty key is falsy. *)
Definition target_dir (w : ParquetDataWriter) (k : string) : string :=
  if String.eqb k "" then full_output_path w else partition_dir w k.

(** The directories made while the groups of the keys [keys] are written. *)
Definition made_dirs (w : ParquetDataWriter) (keys : list string)
    (dirs : list string) : list string :=
  fold_left
    (fun dirs k => if String.eqb k "" then dirs
                   else with_dir dirs (partition_dir w k))
    keys dirs.

(** One turn of the grouping loop, once the key is known. *)
Fixpoint add_to_group (partitions : dict (list record)) (k : string)
    (r : record) : dict (list record) :=
  match partitions with
  | [] => [(k, [r])]
  | (k', rows) :: rest =>
      if String.eqb k' k then (k', (rows ++ [r])%list) :: rest
      else (k', rows) :: add_to_group rest k r
  end.

Definition rows_of (partitions : dict (list record)) (k : string)
    : list record :=
  match dict_lookup partitions k with Some rows => rows | None => [] end.

(** [groups] is the grouping of [data] by sanitized key: the keys are
    distinct, the group of a key holds, in the order of [data], the records
    with that key and is not empty, every record is in the group of its own
    key, and the groups together are the records of [data]. *)
Definition is_grouping (w : ParquetDataWriter) (data : list record)
    (groups : dict (list record)) : Prop :=
  NoDup (map fst groups)
  /\ (forall k rows, In (k, rows) groups ->
        rows <> [] /\ rows = filter (has_key w k) data)
  /\ (forall r, In r data ->
        exists k rows,
          safe_key_of w r = Some k /\ In (k, rows) groups /\ In r rows)
  /\ Permutation (List.concat (map snd groups)) data.

End Writer.

#[global] Arguments sanitize partition_key : simpl never.
#[global] Arguments allowed c : simpl never.
#[global] Arguments safe_char c : simpl never.

(** A decoder to run the embedding on concrete records.  It agrees with
    [json.loads] on the three documents listed, and on every text that is
    not a JSON document. *)
Definition dq : string := chr "034"%char.

Definition doc_operator_filter : string :=
  "{" ++ dq ++ "operator" ++ dq ++ ": " ++ dq ++ "Filter" ++ dq ++ "}".

Definition doc_operator_empty : string :=
  "{" ++ dq ++ "operator" ++ dq ++ ": " ++ dq ++ dq ++ "}".

Definition doc_list : string := "[1, 2]".

Definition json_loads_sample (s : string) : result pyval :=
  if String.eqb s doc_operator_filter then
    Ok (VDict [("operator", VStr "Filter")])
  else if String.eqb s doc_operator_empty then
    Ok (VDict [("operator", VStr "")])
  else if String.eqb s doc_list then
    Ok (VList [VInt 1; VInt 2])
  else Raise JSONDecodeError.

(** The rejection sink of the pipeline: partitioned by the rejecting
    operator, read out of the [_rejection_details] field. *)
Definition rejection_writer : ParquetDataWriter :=
  {| full_output_path := "out/rejected";
     partition_by := Some "operator";
     partition_key_extractor := Some "_rejection_details.operator" |}.

(** A writer partitioned by a plain column. *)
Definition column_writer : ParquetDataWriter :=
  {| full_output_path := "out/rejected";
     partition_by := Some "operator";
     partition_key_extractor := None |}.

Definition empty_fs : FileSystem :=
  {| fs_dirs := ["out/rejected"]; fs_files := [] |}.

(** ** The constructor and [close] *)

Section Init.

(** [fsspec.core.url_to_fs(url)]: the path the url has inside its file
    system (the file system itself is the [FileSystem] of the world). *)
Variable url_to_fs : string -> string.

(** [__init__]: the writer is created on the file system [f], and its
    output directory is made. *)
Definition __init__ (output_path table_name : string)
    (partition_by partition_key_extractor : option string)
    (f : FileSystem) : result unit * World :=
  let output_path := rstrip "/"%char output_path in
  let root_path := url_to_fs output_path in
  let full_output_path := root_path ++ "/" ++ table_name in
  makedirs full_output_path
    {| self := {| full_output_path := full_output_path;
                  partition_by := partition_by;
                  partition_key_extractor := partition_key_extractor |};
       fs := f |}.

End Init.

(** [close]: nothing to do for Parquet. *)
Definition close : M unit := ret tt.

(** ** Reference definitions for the effects of [write] *)

(** The output directory exists, and every file lies in a directory that
    exists. *)
Definition fs_consistent (st : World) : Prop :=
  In (full_output_path (self st)) (fs_dirs (fs st))
  /\ forall directory rows,
       In (directory, rows) (fs_files (fs st)) ->
       In directory (fs_dirs (fs st)).

(** A decoder that gives up on every document with an error the walk does
    not catch, as [json.loads] does on a document nested too deeply. *)
Definition json_loads_failing (s : string) : result pyval :=
  Raise (OtherError "RecursionError").

(** A local path is its own path inside the local file system. *)
Definition local_url_to_fs (url : string) : string := url.

(** A batch of the rejection sink: a record rejected by [Filter], one whose
    details are not JSON, and one whose details are a mapping. *)
Definition sample_batch : list record :=
  [ [("id", VInt 1); ("_rejection_details", VStr doc_operator_filter)];
    [("id", VInt 2); ("_rejection_details", VStr "not json")];
    [("id", VInt 3);
     ("_rejection_details", VDict [("operator", VStr "Dedup/1")])] ].

(** A batch none of whose records names its operator. *)
Definition unresolved_batch : list record :=
  [ [("id", VInt 1)]; [("id", VInt 2); ("_rejection_details", VStr "not json")] ].

(** ["[" * 2000]: the text of a document nested too deeply for
    [json.loads], which raises [RecursionError] on it. *)
Definition deep_brackets : string := str_mul "[" 2000.

(** A rejected record whose details are that text. *)
Definition deep_record : record :=
  [("id", VInt 4); ("_rejection_details", VStr deep_brackets)].

(** A decoder that agrees with [json.loads] on [deep_brackets] too. *)
Definition json_loads_deep (s : string) : result pyval :=
  if String.eqb s deep_brackets then Raise (OtherError "RecursionError")
  else json_loads_sample s.

End ParquetWriter.

(* ===================================================================== *)
(** * framework/metrics/reporter.py                                       *)
(* ===================================================================== *)

Module Reporter.

(** A [pathlib.Path], as its components; [p / name] appends one. *)
Definition Path : Type := list string.

Definition div (p : Path) (name : string) : Path := (p ++ [name])%list.

(** A [pandas.DataFrame], as its rows in index order. *)
Definition DataFrame : Type := list record.

Record MetricsReporter : Type := {
  metrics_path : Path;
  runs_path : Path;
  stages_path : Path;
  operators_path : Path
}.

Definition __init__ (metrics_path : Path) : MetricsReporter :=
  {| metrics_path := metrics_path;
     runs_path := div metrics_path "runs";
     stages_path := div metrics_path "stages";
     operators_path := div metrics_path "operators" |}.

(** [pd.concat(frames, ignore_index=True)]: the rows of the frames one
    after the other, renumbered; an empty list of frames is an error. *)
Definition pd_concat (frames : list DataFrame) : result DataFrame :=
  match frames with
  | [] => Raise (OtherError "ValueError")
  | _ => Ok (List.concat frames)
  end.

Section Load.

(** The file system as [pathlib] and pandas show it. *)
Variable path_exists : Path -> bool.                (* [p.exists()] *)
Variable glob : Path -> string -> list Path.        (* [list(p.glob(pattern))] *)
Variable read_parquet : Path -> result DataFrame.   (* [pd.read_parquet(f)] *)

(** [[pd.read_parquet(f) for f in files]]. *)
Fixpoint read_all (files : list Path) : result (list DataFrame) :=
  match files with
  | [] => Ok []
  | f :: rest =>
      df <- read_parquet f ;;
      dfs <- read_all rest ;;
      Ok (df :: dfs)
  end.

Definition load_metrics (self : MetricsReporter)
    : result (option DataFrame * option DataFrame * option DataFrame) :=
  (* Load run metrics *)
  run_df <-
    (if path_exists (runs_path self) then
       let run_files := glob (runs_path self) "*.parquet" in
       match run_files with
       | [] => Ok None
       | _ => frames <- read_all run_files ;;
              df <- pd_concat frames ;; Ok (Some df)
       end
     else Ok None) ;;
  (* Load stage metrics *)
  stage_df <-
    (if path_exists (stages_path self) then
       let stage_files := glob (stages_path self) "*.parquet" in
       match stage_files with
       | [] => Ok None
       | _ => frames <- read_all stage_files ;;
              df <- pd_concat frames ;; Ok (Some df)
       end
     else Ok None) ;;
  (* Load operator metrics *)
  operator_df <-
    (if path_exists (operators_path self) then
       let operator_files := glob (operators_path self) "*.parquet" in
       match operator_files with
       | [] => Ok None
       | _ => frames <- read_all operator_files ;;
              df <- pd_concat frames ;; Ok (Some df)
       end
     else Ok None) ;;
  Ok (run_df, stage_df, operator_df).

(** ** Reference definitions, written from the specification *)

(** The Parquet files found in a tier's directory: none when the directory
    does not exist. *)
Definition tier_files (metrics_root : Path) (tier : string) : list Path :=
  if path_exists (div metrics_root tier)
  then glob (div metrics_root tier) "*.parquet"
  else [].

(** The union of the files of a tier, [tables f] being the rows of [f]. *)
Definition union_of (tables : Path -> DataFrame) (files : list Path)
    : option DataFrame :=
  match files with
  | [] => None
  | _ => Some (flat_map tables files)
  end.

End Load.

(** ** The HTML report *)

(** What of the interpreter's surroundings [_generate_html] depends on:
    whether [plotly] can be imported, and the clock. *)
Record Env : Type := {
  plotly_installed : bool;
  now : string
}.

(** [import plotly.graph_objects] and [from plotly.subplots import ...]. *)
Definition import_plotly (env : Env) : result unit :=
  if plotly_installed env then Ok tt else Raise ImportError.

(** The four methods that build the HTML of a chart section with pandas
    and Plotly calls.  Each returns the text of the section or raises: a
    [KeyError] on a frame that lacks a column the method reads, for
    instance. *)
Record ChartHelpers : Type := {
  _generate_run_summary : DataFrame -> result string;
  _generate_stage_chart : DataFrame -> result string;
  _generate_operator_chart : DataFrame -> result string;
  _generate_latency_chart : DataFrame -> result string
}.

(** The body of a section of the page: the text a chart helper returned, or
    the table pandas renders for a frame (its text is not modelled). *)
Inductive body : Type :=
| Chart (html : string)
| Table (df : DataFrame).                 (* [df.to_html(index=False)] *)

(** A section: [f"<h2>{title}</h2>\n{body}"]. *)
Definition section : Type := (string * body)%type.

(** The two page templates, with what is substituted into them. *)
Inductive Html : Type :=
| ChartReport (generated : string) (charts_html : list section)
| SimpleReport (sections : list section).

(** [df is not None and len(df) > 0]. *)
Definition has_rows (df : option DataFrame) : bool :=
  match df with
  | Some (_ :: _) => true
  | _ => false
  end.

Definition frame (df : option DataFrame) : DataFrame :=
  match df with Some rows => rows | None => [] end.

Definition _generate_simple_html (self : MetricsReporter)
    (run_df stage_df operator_df : option DataFrame) : Html :=
  let sections := [] in
  let sections :=
    if has_rows run_df
    then (sections ++ [("Run Metrics", Table (frame run_df))])%list
    else sections in
  let sections :=
    if has_rows stage_df
    then (sections ++ [("Stage Metrics", Table (frame stage_df))])%list
    else sections in
  let sections :=
    if has_rows operator_df
    then (sections ++ [("Operator Metrics", Table (frame operator_df))])%list
    else sections in
  SimpleReport sections.

(** The page built once the import has succeeded.  A helper is called
    only for a frame with rows, and an exception of a helper leaves the
    method. *)
Definition chart_html (helpers : ChartHelpers) (self : MetricsReporter)
    (env : Env) (run_df stage_df operator_df : option DataFrame)
    : result Html :=
  let charts_html := [] in
  charts_html <-
    (if has_rows run_df then
       run_summary <- _generate_run_summary helpers (frame run_df) ;;
       Ok (charts_html ++ [("Run Summary", Chart run_summary)])%list
     else Ok charts_html) ;;
  charts_html <-
    (if has_rows stage_df then
       stage_chart <- _generate_stage_chart helpers (frame stage_df) ;;
       Ok (charts_html ++ [("Stage Performance", Chart stage_chart)])%list
     else Ok charts_html) ;;
  charts_html <-
    (if has_rows operator_df then
       operator_chart <-
         _generate_operator_chart helpers (frame operator_df) ;;
       let charts_html :=
         (charts_html ++ [("Operator Performance", Chart operator_chart)])%list
       in
       latency_chart <- _generate_latency_chart helpers (frame operator_df) ;;
       Ok (charts_html ++ [("Latency Distribution", Chart latency_chart)])%list
     else Ok charts_html) ;;
  Ok (ChartReport (now env) charts_html).

Definition except_import (e : exn) : bool :=
  match e with ImportError => true | _ => false end.

(** [_generate_html]: the import is tried inside the method, at every
    call; [except ImportError] returns the simple page. *)
Definition _generate_html (helpers : ChartHelpers) (self : MetricsReporter)
    (env : Env) (run_df stage_df operator_df : option DataFrame)
    : result Html :=
  match import_plotly env with
  | Raise e =>
      if except_import e
      then Ok (_generate_simple_html self run_df stage_df operator_df)
      else Raise e
  | Ok _ => chart_html helpers self env run_df stage_df operator_df
  end.

(** ** Reference definitions, written from the specification *)

(** The two renderer implementations behind one interface. *)
Inductive Renderer : Type := ChartRenderer | SimpleRenderer.

Definition render (helpers : ChartHelpers) (k : Renderer)
    (self : MetricsReporter) (env : Env)
    (run_df stage_df operator_df : option DataFrame) : result Html :=
  match k with
  | ChartRenderer => chart_html helpers self env run_df stage_df operator_df
  | SimpleRenderer =>
      Ok (_generate_simple_html self run_df stage_df operator_df)
  end.

(** Selection at startup: a probe of the surroundings in which the reporter
    is created fixes the renderer, and every later call uses it. *)
Definition selected_at_startup (helpers : ChartHelpers) : Prop :=
  exists probe : Env -> Renderer,
    forall (startup : Env) (root : Path) (env : Env)
           (run_df stage_df operator_df : option DataFrame),
      _generate_html helpers (__init__ root) env run_df stage_df operator_df
      = render helpers (probe startup) (__init__ root) env
          run_df stage_df operator_df.

(** Selection inside the method: the probe is made in the surroundings of
    the call itself. *)
Definition probe_at_call (env : Env) : Renderer :=
  if plotly_installed env then ChartRenderer else SimpleRenderer.

(** A sample disk: two run files, an empty [stages] directory, and no
    [operators] directory. *)
Definition sample_exists (p : Path) : bool :=
  match p with
  | ["metrics"; "runs"] | ["metrics"; "stages"] => true
  | _ => false
  end.

Definition sample_glob (p : Path) (pattern : string) : list Path :=
  match p with
  | ["metrics"; "runs"] =>
      [["metrics"; "runs"; "run_1.parquet"]; ["metrics"; "runs"; "run_2.parquet"]]
  | _ => []
  end.

Definition sample_tables (f : Path) : DataFrame :=
  match f with
  | ["metrics"; "runs"; "run_1.parquet"] => [[("run_id", VInt 1)]]
  | ["metrics"; "runs"; "run_2.parquet"] =>
      [[("run_id", VInt 2)]; [("run_id", VInt 3)]]
  | _ => []
  end.

Definition sample_read (f : Path) : result DataFrame := Ok (sample_tables f).

(** A tier as the renderers see it: a frame without rows counts as no
    frame. *)
Definition shown (df : option DataFrame) : option DataFrame :=
  if has_rows df then df else None.

(** Chart helpers to run the embedding: each raises [KeyError] on a frame
    with a row that lacks the first column the method reads, and returns a
    placeholder for the text otherwise. *)
Definition reads_column (column text : string) (df : DataFrame)
    : result string :=
  if forallb (fun row => dict_contains row column) df
  then Ok text else Raise KeyError.

Definition sample_helpers : ChartHelpers :=
  {| _generate_run_summary := reads_column "total_input_records" "cards";
     _generate_stage_chart := reads_column "stage_name" "stage-chart";
     _generate_operator_chart := reads_column "stage_name" "operator-chart";
     _generate_latency_chart := reads_column "operator_name" "latency-chart" |}.

(** ** The block of a tier *)

Section Tier.

Variable path_exists : Path -> bool.
Variable glob : Path -> string -> list Path.
Variable read_parquet : Path -> result DataFrame.

(** The block [load_metrics] runs for the directory of a tier. *)
Definition load_tier_dir (dir : Path) : result (option DataFrame) :=
  if path_exists dir then
    let files := glob dir "*.parquet" in
    match files with
    | [] => Ok None
    | _ => frames <- read_all read_parquet files ;;
           df <- pd_concat frames ;; Ok (Some df)
    end
  else Ok None.

End Tier.

(** A disk on which the second run file cannot be read. *)
Definition sample_read_broken (f : Path) : result DataFrame :=
  match f with
  | ["metrics"; "runs"; "run_2.parquet"] => Raise (OtherError "ArrowInvalid")
  | _ => Ok (sample_tables f)
  end.

End Reporter.

(* ===================================================================== *)
(** * Properties of the partition-key extraction                          *)
(* ===================================================================== *)

Import ParquetWriter.

Section ExtractionFacts.

Variable json_loads : string -> result pyval.

Local Notation "'extract'" := (_extract_partition_key json_loads).
Local Notation "'walk''" := (walk json_loads).
Local Notation "'resolve''" := (resolve json_loads).

Lemma dict_get_lookup (d : dict pyval) (key : string) :
  dict_get d key
  = match dict_lookup d key with Some v => v | None => VNone end.
Proof. reflexivity. Qed.


(** A path that does not resolve ends the walk with [return "unknown"],
    unless [json.loads] raises, on a string the walk stands on, an exception
    that the [except] clause does not list: that exception leaves the
    walk. *)
Lemma walk_unresolved (parts : list string) :
  forall v, resolve' parts v = None ->
  walk' parts v = Ok (Return "unknown")
  \/ exists s e,
       json_loads s = Raise e /\ except_json e = false
       /\ walk' parts v = Raise e.
Proof.
  induction parts as [|part rest IH]; intros v H; simpl in *.
  - discriminate.
  - unfold as_mapping in H. unfold walk_step.
    destruct v as [| b | n | f | s | items | d]; simpl; auto.
    + destruct (json_loads s) as [parsed|e] eqn:Hs.
      * destruct parsed as [| b | n | f | s' | items | d]; simpl; auto.
        rewrite dict_get_lookup.
        destruct (dict_lookup d part) as [v1|]; auto.
        destruct v1; simpl in H; try discriminate; simpl; auto.
      * simpl. destruct (except_json e) eqn:He; auto.
        right. exists s, e. auto.
    + rewrite dict_get_lookup.
      destruct (dict_lookup d part) as [v1|]; auto.
      destruct v1; simpl in H; try discriminate; simpl; auto.
Qed.

Lemma truthy_opt_some (o : option string) :
  truthy_opt o = true -> exists s, o = Some s /\ s <> "".
Proof.
  destruct o as [s|]; simpl; try discriminate.
  intros H. exists s. split; auto. intros ->. discriminate.
Qed.

Lemma truthy_opt_of (s : string) : s <> "" -> truthy_opt (Some s) = true.
Proof.
  intros H. unfold truthy_opt. destruct (String.eqb_spec s ""); [contradiction | reflexivity].
Qed.

(** The nested-extractor mode, in terms of the walk. *)
Lemma extract_nested (w : ParquetDataWriter) (r : record) (path : string) :
  truthy_opt (partition_by w) = true ->
  partition_key_extractor w = Some path -> path <> "" ->
  extract w r
  = match walk' (split "."%char path) (VDict r) with
    | Ok (Next value) => Ok (if truthy value then str value else "unknown")
    | Ok (Return key) => Ok key
    | Raise e => Raise e
    end.
Proof.
  intros Hby Hpath Hne. unfold _extract_partition_key.
  rewrite Hby, Hpath, (truthy_opt_of path Hne). reflexivity.
Qed.

(** The direct-column mode. *)
Lemma extract_direct (w : ParquetDataWriter) (r : record) (column : string) :
  partition_by w = Some column -> column <> "" ->
  truthy_opt (partition_key_extractor w) = false ->
  extract w r
  = Ok (match dict_lookup r column with
        | None | Some VNone => "unknown"
        | Some value => str value
        end).
Proof.
  intros Hby Hne Hx. unfold _extract_partition_key.
  rewrite Hx, Hby, (truthy_opt_of column Hne). simpl.
  rewrite dict_get_lookup.
  destruct (dict_lookup r column) as [v|]; auto. destruct v; auto.
Qed.

(** An exception of [json.loads] that the [except] clause does not list
    leaves the method, when it is raised on the string a segment of the
    path stands on. *)
Lemma extract_raises (w : ParquetDataWriter) (r : record)
    (first second : string) (s : string) (e : exn) :
  truthy_opt (partition_by w) = true ->
  partition_key_extractor w = Some (first ++ "." ++ second) ->
  split "."%char (first ++ "." ++ second) = [first; second] ->
  dict_lookup r first = Some (VStr s) ->
  json_loads s = Raise e -> except_json e = false ->
  extract w r = Raise e.
Proof.
  intros Hby Hpath Hsplit Hr Hs He.
  rewrite (extract_nested w r _ Hby Hpath) by (destruct first; discriminate).
  rewrite Hsplit. cbn [walk]. unfold walk_step.
  rewrite dict_get_lookup, Hr. cbn. rewrite Hs. cbn. rewrite He. reflexivity.
Qed.

(** C1.  A rejected record whose details are a string nested too deeply
    for [json.loads]: the path [_rejection_details.operator] does not
    resolve on it, and [_extract_partition_key] does not return
    ["unknown"]; the [RecursionError] that [json.loads] raises is not listed
    in the [except] clause and leaves the method. *)
Theorem unresolved_path_can_raise :
  json_loads deep_brackets = Raise (OtherError "RecursionError") ->
  resolve' (split "."%char "_rejection_details.operator") (VDict deep_record)
  = None
  /\ extract rejection_writer deep_record
     = Raise (OtherError "RecursionError").
Proof.
  intros Hdeep. split.
  - change (split "."%char "_rejection_details.operator")
      with ["_rejection_details"; "operator"].
    cbn [resolve as_mapping]. change (dict_lookup deep_record "_rejection_details")
      with (Some (VStr deep_brackets)).
    cbn [is_none resolve as_mapping]. rewrite Hdeep. reflexivity.
  - apply (extract_raises rejection_writer deep_record
             "_rejection_details" "operator" deep_brackets);
      auto; reflexivity.
Qed.

(** The three ways a segment fails, one by one: [value] is where the walk
    stands when [part] is to be applied. *)
Lemma resolve_absent_segment (part : string) (rest : list string)
    (value : pyval) (d : dict pyval) :
  as_mapping json_loads value = Some d -> dict_lookup d part = None ->
  resolve' (part :: rest) value = None.
Proof. intros Hm Hl. simpl. now rewrite Hm, Hl. Qed.

Lemma resolve_none_value (part : string) (rest : list string)
    (value : pyval) (d : dict pyval) :
  as_mapping json_loads value = Some d -> dict_lookup d part = Some VNone ->
  resolve' (part :: rest) value = None.
Proof. intros Hm Hl. simpl. now rewrite Hm, Hl. Qed.

Lemma resolve_not_a_mapping (part : string) (rest : list string)
    (value : pyval) :
  as_mapping json_loads value = None ->
  resolve' (part :: rest) value = None.
Proof. intros Hm. simpl. now rewrite Hm. Qed.

(** A failure after a resolved prefix is a failure of the whole path. *)
Lemma resolve_app (prefix rest : list string) (v : pyval) :
  resolve' (prefix ++ rest)%list v
  = match resolve' prefix v with
    | Some v' => resolve' rest v'
    | None => None
    end.
Proof.
  revert v. induction prefix as [|part prefix IH]; intros v; simpl; auto.
  destruct (as_mapping json_loads v) as [d|]; auto.
  destruct (dict_lookup d part) as [v1|]; auto.
  destruct (is_none v1); auto.
Qed.

(** One turn of the loop on a string: the string is parsed, and the same
    segment is applied to what the parse gives. *)
Lemma walk_string (part : string) (rest : list string) (s : string) :
  walk' (part :: rest) (VStr s)
  = match json_loads s with
    | Ok (VDict m) => walk' (part :: rest) (VDict m)
    | Ok _ => Ok (Return "unknown")
    | Raise e => if except_json e then Ok (Return "unknown") else Raise e
    end.
Proof.
  simpl. unfold walk_step. simpl.
  destruct (json_loads s) as [parsed|e]; simpl.
  - destruct parsed; reflexivity.
  - destruct (except_json e); reflexivity.
Qed.

(** C4 (amended).  Where the walk stands on a string, the string is parsed
    with [json.loads]: when the parse gives a mapping, the walk goes on by
    applying the same segment to that mapping; when it gives anything else,
    or raises [JSONDecodeError], the key is ["unknown"]; any other exception
    of [json.loads] leaves the method.  With the path
    [_rejection_details.operator] and a record whose [_rejection_details]
    field is the JSON text of a mapping with an [operator] entry, the key is
    the string form of that entry's value when the value is truthy, and
    ["unknown"] when it is [None] or falsy. *)
Theorem string_segment_is_parsed :
  (forall (part : string) (rest : list string) (s : string),
      walk' (part :: rest) (VStr s)
      = match json_loads s with
        | Ok (VDict m) => walk' (part :: rest) (VDict m)
        | Ok _ => Ok (Return "unknown")
        | Raise e => if except_json e then Ok (Return "unknown") else Raise e
        end)
  /\ (forall (w : ParquetDataWriter) (r : record) (s : string)
             (m : dict pyval) (v : pyval),
        truthy_opt (partition_by w) = true ->
        partition_key_extractor w = Some "_rejection_details.operator" ->
        dict_lookup r "_rejection_details" = Some (VStr s) ->
        json_loads s = Ok (VDict m) ->
        dict_lookup m "operator" = Some v ->
        extract w r = Ok (if truthy v then str v else "unknown")).
Proof.
  split.
  - intros part rest s. apply walk_string.
  - intros w r s m v Hby Hpath Hr Hs Hm.
    rewrite (extract_nested w r _ Hby Hpath) by discriminate.
    change (split "."%char "_rejection_details.operator")
      with ["_rejection_details"; "operator"].
    cbn [walk]. unfold walk_step.
    rewrite dict_get_lookup, Hr. cbn. rewrite Hs. cbn.
    rewrite dict_get_lookup, Hm.
    destruct v; reflexivity.
Qed.

(** C5.  [_extract_partition_key] does not return on every record: when
    [json.loads] raises, on the details of a rejected record, an exception
    other than [JSONDecodeError] (a [RecursionError] on text nested too
    deeply, a [ValueError] on a number of more than 4300 digits), no key is
    returned and the exception leaves the method. *)
Theorem uncaught_decoder_error_leaves_extraction
    (id : pyval) (s : string) (e : exn) :
  json_loads s = Raise e ->
  except_json e = false ->
  extract rejection_writer [("id", id); ("_rejection_details", VStr s)]
  = Raise e.
Proof.
  intros Hs He.
  apply (extract_raises rejection_writer _ "_rejection_details" "operator" s);
    auto; reflexivity.
Qed.


End ExtractionFacts.

(* ===================================================================== *)
(** * Properties of the key sanitization                                  *)
(* ===================================================================== *)

Section SanitizeFacts.

Lemma char_in_dash_underscore (c : ascii) :
  isalnum c || char_in c "-_" = allowed c.
Proof.
  unfold allowed, char_in. cbn [list_ascii_of_string existsb].
  now rewrite orb_false_r, orb_assoc.
Qed.

Lemma sanitize_nil : sanitize "" = "".
Proof. reflexivity. Qed.

(** The join of the one-character pieces, one character at a time. *)
Lemma sanitize_cons (c : ascii) (s : string) :
  sanitize (String c s) = String (safe_char c) (sanitize s).
Proof.
  unfold sanitize, join, safe_char.
  cbn [list_ascii_of_string map String.concat].
  rewrite char_in_dash_underscore.
  destruct (map _ (list_ascii_of_string s)) as [|piece pieces].
  - destruct (allowed c); reflexivity.
  - destruct (allowed c); reflexivity.
Qed.

Lemma allowed_safe_char (c : ascii) : allowed (safe_char c) = true.
Proof.
  unfold safe_char. destruct (allowed c) eqn:H; [exact H | vm_compute; reflexivity].
Qed.

Lemma safe_char_allowed (c : ascii) : allowed c = true -> safe_char c = c.
Proof. unfold safe_char. now intros ->. Qed.

Lemma sanitize_length (s : string) :
  String.length (sanitize s) = String.length s.
Proof.
  induction s as [|c s IH]; [reflexivity|].
  rewrite sanitize_cons. cbn [String.length]. now rewrite IH.
Qed.

Lemma sanitize_get (s : string) :
  forall i c, String.get i s = Some c ->
  String.get i (sanitize s) = Some (safe_char c).
Proof.
  induction s as [|c0 s IH]; intros i c H; simpl in H.
  - discriminate.
  - rewrite sanitize_cons. destruct i as [|i]; cbn [String.get].
    + congruence.
    + now apply IH.
Qed.

Lemma sanitize_fixed (s : string) :
  forallb allowed (list_ascii_of_string s) = true -> sanitize s = s.
Proof.
  induction s as [|c s IH]; cbn [list_ascii_of_string forallb]; intros H;
    [reflexivity|].
  apply andb_true_iff in H. destruct H as [Hc Hs].
  rewrite sanitize_cons, (safe_char_allowed c Hc), (IH Hs). reflexivity.
Qed.

Lemma sanitize_allowed (s : string) :
  forallb allowed (list_ascii_of_string (sanitize s)) = true.
Proof.
  induction s as [|c s IH]; [reflexivity|].
  rewrite sanitize_cons. cbn [list_ascii_of_string forallb].
  rewrite allowed_safe_char, IH. reflexivity.
Qed.

(** C2.  The sanitization of [write] keeps the length of the key and maps
    every character to itself when it is alphanumeric, [-] or [_], and to
    [_] otherwise; ["a/b c"] becomes ["a_b_c"]; a key made of allowed
    characters only is unchanged. *)
Theorem sanitize_characterwise (s : string) :
  String.length (sanitize s) = String.length s
  /\ (forall (i : nat) (c : ascii),
        String.get i s = Some c ->
        String.get i (sanitize s)
        = Some (if isalnum c || Ascii.eqb c "-"%char || Ascii.eqb c "_"%char
                then c else "_"%char))
  /\ sanitize "a/b c" = "a_b_c"
  /\ (forallb allowed (list_ascii_of_string s) = true -> sanitize s = s).
Proof.
  split; [|split; [|split]].
  - apply sanitize_length.
  - intros i c H. apply (sanitize_get s i c H).
  - vm_compute. reflexivity.
  - apply sanitize_fixed.
Qed.

(** C3.  The sanitization is idempotent. *)
Theorem sanitize_idempotent (s : string) :
  sanitize (sanitize s) = sanitize s.
Proof.
  apply sanitize_fixed, sanitize_allowed.
Qed.

End SanitizeFacts.

(* ===================================================================== *)
(** * Properties of the grouping loop and of the writes                   *)
(* ===================================================================== *)

Section GroupFacts.

Lemma dict_contains_cons {V : Type} (k0 : string) (v : V) (rest : dict V)
    (k : string) :
  dict_contains ((k0, v) :: rest) k
  = if String.eqb k0 k then true else dict_contains rest k.
Proof.
  unfold dict_contains. simpl. now destruct (String.eqb k0 k).
Qed.

Lemma dict_contains_in {V : Type} (d : dict V) (k : string) :
  dict_contains d k = true <-> In k (map fst d).
Proof.
  induction d as [|[k0 v] rest IH].
  - simpl. split; [discriminate | contradiction].
  - rewrite dict_contains_cons. simpl.
    destruct (String.eqb_spec k0 k) as [->|Hne].
    + split; auto.
    + rewrite IH. split; [auto | intros [H|H]; [contradiction | exact H]].
Qed.

Lemma dict_lookup_in {V : Type} (d : dict V) (k : string) (v : V) :
  NoDup (map fst d) -> In (k, v) d -> dict_lookup d k = Some v.
Proof.
  induction d as [|[k0 v0] rest IH]; simpl; intros Hnd Hin.
  - contradiction.
  - inversion Hnd as [|? ? Hnot Hnd']; subst.
    destruct Hin as [Heq|Hin].
    + inversion Heq; subst. now rewrite String.eqb_refl.
    + destruct (String.eqb_spec k0 k) as [->|Hne]; auto.
      exfalso. apply Hnot. apply in_map_iff. now exists (k, v).
Qed.

(** The test, the insertion of an empty list and the append of one turn of
    the loop never raise [KeyError]. *)
Lemma append_after_insert (partitions : dict (list record)) (k : string)
    (r : record) :
  append_at
    (if negb (dict_contains partitions k)
     then dict_setitem partitions k [] else partitions) k r
  = Ok (add_to_group partitions k r).
Proof.
  induction partitions as [|[k0 rows] rest IH].
  - simpl. now rewrite String.eqb_refl.
  - rewrite dict_contains_cons. simpl.
    destruct (String.eqb k0 k) eqn:Hk; simpl.
    + now rewrite Hk.
    + destruct (dict_contains rest k) eqn:Hc; simpl in *;
        rewrite Hk, IH; reflexivity.
Qed.

Lemma rows_of_add (partitions : dict (list record)) (k : string) (r : record)
    (k' : string) :
  rows_of (add_to_group partitions k r) k'
  = (rows_of partitions k' ++ if String.eqb k k' then [r] else [])%list.
Proof.
  unfold rows_of.
  induction partitions as [|[k0 rows] rest IH]; simpl.
  - now destruct (String.eqb k k').
  - destruct (String.eqb_spec k0 k) as [->|Hne]; simpl.
    + destruct (String.eqb k k'); [reflexivity | now rewrite app_nil_r].
    + destruct (String.eqb_spec k0 k') as [->|Hne']; auto.
      destruct (String.eqb_spec k k') as [->|]; [contradiction|].
      now rewrite app_nil_r.
Qed.

Lemma keys_add (partitions : dict (list record)) (k : string) (r : record) :
  map fst (add_to_group partitions k r)
  = if dict_contains partitions k then map fst partitions
    else (map fst partitions ++ [k])%list.
Proof.
  induction partitions as [|[k0 rows] rest IH]; simpl; auto.
  rewrite dict_contains_cons.
  destruct (String.eqb k0 k); simpl; auto.
  rewrite IH. now destruct (dict_contains rest k).
Qed.

Lemma nodup_add (partitions : dict (list record)) (k : string) (r : record) :
  NoDup (map fst partitions) ->
  NoDup (map fst (add_to_group partitions k r)).
Proof.
  intros Hnd. rewrite keys_add.
  destruct (dict_contains partitions k) eqn:Hc; auto.
  apply NoDup_app; auto.
  - repeat constructor. simpl. tauto.
  - intros x Hx Hk. destruct Hk as [Hk|Hk]; [subst x | contradiction].
    apply dict_contains_in in Hx. congruence.
Qed.

Lemma in_keys_add (partitions : dict (list record)) (k : string) (r : record)
    (k' : string) :
  In k' (map fst (add_to_group partitions k r))
  <-> In k' (map fst partitions) \/ k' = k.
Proof.
  rewrite keys_add. destruct (dict_contains partitions k) eqn:Hc.
  - apply dict_contains_in in Hc. split; auto.
    intros [H | ->]; auto.
  - rewrite in_app_iff. simpl. intuition.
Qed.

Lemma concat_add (partitions : dict (list record)) (k : string) (r : record) :
  Permutation (List.concat (map snd (add_to_group partitions k r)))
              (List.concat (map snd partitions) ++ [r])%list.
Proof.
  induction partitions as [|[k0 rows] rest IH]; simpl.
  - apply Permutation_refl.
  - destruct (String.eqb k0 k); simpl.
    + rewrite <- !app_assoc. apply Permutation_app_head.
      apply Permutation_app_comm.
    + rewrite <- app_assoc. now apply Permutation_app_head.
Qed.

End GroupFacts.

Section WriteFacts.

Variable json_loads : string -> result pyval.

Local Notation "'extract'" := (_extract_partition_key json_loads).
Local Notation "'group''" := (group json_loads).
Local Notation "'safe_key''" := (safe_key_of json_loads).
Local Notation "'has_key''" := (has_key json_loads).

Lemma has_key_eqb (w : ParquetDataWriter) (r : record) (k k' : string) :
  safe_key' w r = Some k -> has_key' w k' r = String.eqb k k'.
Proof. unfold has_key. now intros ->. Qed.

Lemma group_cons (w : ParquetDataWriter) (r : record) (rest : list record)
    (partitions : dict (list record)) (k : string) :
  safe_key' w r = Some k ->
  group' w (r :: rest) partitions
  = group' w rest (add_to_group partitions k r).
Proof.
  unfold safe_key_of. intros H. simpl.
  destruct (extract w r) as [key|e]; [|discriminate].
  inversion H; subst k. simpl.
  rewrite append_after_insert. reflexivity.
Qed.

(** One turn of the grouping loop, read backwards. *)
Lemma group_ok_cons (w : ParquetDataWriter) (r : record) (rest : list record)
    (partitions groups : dict (list record)) :
  group' w (r :: rest) partitions = Ok groups ->
  exists k, safe_key' w r = Some k
            /\ group' w rest (add_to_group partitions k r) = Ok groups.
Proof.
  intros H. unfold safe_key_of.
  destruct (extract w r) as [key|e] eqn:He.
  - exists (sanitize key). split; [reflexivity|].
    rewrite <- H. symmetry. apply group_cons.
    unfold safe_key_of. now rewrite He.
  - simpl in H. rewrite He in H. discriminate.
Qed.

(** The loop completes exactly when the key of every record can be
    extracted. *)
Lemma group_returns (w : ParquetDataWriter) (data : list record) :
  (forall r, In r data -> exists k, safe_key' w r = Some k) ->
  forall partitions, exists groups, group' w data partitions = Ok groups.
Proof.
  induction data as [|r rest IH]; intros Hkeys partitions.
  - now exists partitions.
  - destruct (Hkeys r (or_introl eq_refl)) as [k Hk].
    rewrite (group_cons w r rest partitions k Hk).
    apply IH. intros r' Hr'. apply Hkeys. now right.
Qed.

(** What the loop has built when it completes, from any dict it starts
    with. *)
Lemma group_invariant (w : ParquetDataWriter) :
  forall (data : list record) (partitions groups : dict (list record)),
    group' w data partitions = Ok groups ->
    (forall r, In r data -> exists k, safe_key' w r = Some k)
    /\ (forall k, rows_of groups k
                  = (rows_of partitions k ++ filter (has_key' w k) data)%list)
    /\ (NoDup (map fst partitions) -> NoDup (map fst groups))
    /\ (forall k, In k (map fst groups)
                  <-> In k (map fst partitions)
                      \/ exists r, In r data /\ safe_key' w r = Some k)
    /\ Permutation (List.concat (map snd groups))
                   (List.concat (map snd partitions) ++ data)%list.
Proof.
  intros data.
  induction data as [|r rest IH]; intros partitions groups Hrun.
  - simpl in Hrun. inversion Hrun; subst groups. simpl.
    split; [intros r []|]. split; [|split; [|split]].
    + intros k. now rewrite app_nil_r.
    + auto.
    + intros k. split; [auto|].
      intros [H | [r [[] _]]]. exact H.
    + now rewrite app_nil_r.
  - destruct (group_ok_cons w r rest partitions groups Hrun) as [k [Hk Hrest]].
    destruct (IH (add_to_group partitions k r) groups Hrest)
      as [Hdef [Hrows [Hnd [Hkeys Hperm]]]].
    split; [|split; [|split; [|split]]].
    + intros r' [<- | Hr']; [now exists k | now apply Hdef].
    + intros k'. rewrite Hrows, rows_of_add. simpl.
      rewrite (has_key_eqb w r k k' Hk), <- app_assoc.
      now destruct (String.eqb k k').
    + intros H. apply Hnd. now apply nodup_add.
    + intros k'. rewrite Hkeys, in_keys_add. split.
      * intros [[H | ->] | [r' [Hin Hr']]].
        -- now left.
        -- right. exists r. simpl. auto.
        -- right. exists r'. simpl. auto.
      * intros [H | [r' [[<- | Hin] Hr']]].
        -- left. now left.
        -- left. right. congruence.
        -- right. now exists r'.
    + eapply Permutation_trans; [exact Hperm|].
      eapply Permutation_trans.
      * apply Permutation_app_tail. apply concat_add.
      * rewrite <- app_assoc. apply Permutation_refl.
Qed.

(** X1.  When the grouping loop of [write] completes (the key of every
    record could be extracted), the dict it has built is the grouping of the
    batch by sanitized key: the keys are distinct, the group of a key is not
    empty and holds, in the order of the batch, exactly the records with
    that key, every record is in the group of its own key, and the groups
    together are the records of the batch. *)
Theorem group_is_grouping (w : ParquetDataWriter) (data : list record)
    (groups : dict (list record)) :
  group' w data [] = Ok groups ->
  is_grouping json_loads w data groups.
Proof.
  intros Hrun.
  destruct (group_invariant w data [] groups Hrun)
    as [Hdef [Hrows [Hnd [Hkeys Hperm]]]].
  assert (Hnodup : NoDup (map fst groups)) by (apply Hnd; constructor).
  assert (Hgroup : forall k rows, In (k, rows) groups ->
                     rows = filter (has_key' w k) data).
  { intros k rows Hin.
    specialize (Hrows k). unfold rows_of in Hrows.
    rewrite (dict_lookup_in groups k rows Hnodup Hin) in Hrows.
    exact Hrows. }
  unfold is_grouping. split; [exact Hnodup|]. split; [|split].
  - intros k rows Hin. split; [|now apply Hgroup].
    assert (Hk : In k (map fst groups))
      by (apply in_map_iff; now exists (k, rows)).
    apply Hkeys in Hk. destruct Hk as [[]|[r [Hr Hkey]]].
    rewrite (Hgroup k rows Hin). intros Hnil.
    assert (Hmem : In r (filter (has_key' w k) data)).
    { apply filter_In. split; auto.
      rewrite (has_key_eqb w r k k Hkey). apply String.eqb_refl. }
    rewrite Hnil in Hmem. contradiction.
  - intros r Hr. destruct (Hdef r Hr) as [k Hk].
    assert (Hin : In k (map fst groups))
      by (apply Hkeys; right; now exists r).
    apply in_map_iff in Hin. destruct Hin as [[k' rows] [Heq Hin]].
    simpl in Heq. subst k'. exists k, rows. repeat split; auto.
    rewrite (Hgroup k rows Hin). apply filter_In. split; auto.
    rewrite (has_key_eqb w r k k Hk). apply String.eqb_refl.
  - exact Hperm.
Qed.

(** X7.  Grouping does not depend on batch boundaries: when the loop
    completes on two batches it completes on their concatenation, and the
    group of every key is then the group the first batch gives followed by
    the group the second batch gives. *)
Theorem group_of_concatenation (w : ParquetDataWriter)
    (first second : list record) (g1 g2 : dict (list record)) :
  group' w first [] = Ok g1 ->
  group' w second [] = Ok g2 ->
  exists groups,
    group' w (first ++ second)%list [] = Ok groups
    /\ forall k, rows_of groups k = (rows_of g1 k ++ rows_of g2 k)%list.
Proof.
  intros H1 H2.
  destruct (group_invariant w first [] g1 H1) as [Hdef1 [Hrows1 _]].
  destruct (group_invariant w second [] g2 H2) as [Hdef2 [Hrows2 _]].
  destruct (group_returns w (first ++ second)%list) with (partitions := @nil (string * list record))
    as [groups Hrun].
  { intros r Hr. apply in_app_or in Hr. destruct Hr; auto. }
  exists groups. split; [exact Hrun|].
  destruct (group_invariant w _ [] groups Hrun) as [_ [Hrows _]].
  intros k. rewrite Hrows, Hrows1, Hrows2, filter_app. reflexivity.
Qed.

(** One non-empty group written: the directory is made unless the key is
    empty, and one file is added. *)
Lemma write_partition_group (w : ParquetDataWriter) (f : FileSystem)
    (rows : list record) (k : string) :
  rows <> [] ->
  _write_partition rows (Some k) {| self := w; fs := f |}
  = (Ok tt,
     {| self := w;
        fs := {| fs_dirs := made_dirs w [k] (fs_dirs f);
                 fs_files := (fs_files f ++ [(target_dir w k, rows)])%list |} |}).
Proof.
  intros Hrows. destruct rows as [|r rows]; [contradiction|].
  unfold _write_partition, mbind, get_self, target_dir, made_dirs. simpl.
  destruct (String.eqb k ""); reflexivity.
Qed.

Lemma write_groups (w : ParquetDataWriter) (groups : dict (list record)) :
  (forall k rows, In (k, rows) groups -> rows <> []) ->
  forall f : FileSystem,
    for_each groups
      (fun item => _write_partition (snd item) (Some (fst item)))
      {| self := w; fs := f |}
    = (Ok tt,
       {| self := w;
          fs := {| fs_dirs := made_dirs w (map fst groups) (fs_dirs f);
                   fs_files :=
                     (fs_files f
                      ++ map (fun item => (target_dir w (fst item), snd item))
                           groups)%list |} |}).
Proof.
  induction groups as [|[k rows] rest IH]; intros Hne f.
  - simpl. unfold ret. rewrite app_nil_r. now destruct f.
  - simpl for_each. unfold mbind at 1. simpl fst. simpl snd.
    rewrite (write_partition_group w f rows k)
      by (apply (Hne k); now left).
    rewrite IH by (intros k' rows' Hin; apply (Hne k'); now right).
    simpl. rewrite <- app_assoc. reflexivity.
Qed.

(** The group of a key that is not empty goes to [partition_by=key]. *)
Lemma target_dir_nonempty (w : ParquetDataWriter) (k : string) :
  k <> "" -> target_dir w k = partition_dir w k.
Proof.
  intros Hk. unfold target_dir.
  destruct (String.eqb_spec k ""); [contradiction | reflexivity].
Qed.

(** C6.  A record whose partition column holds the empty string: its group
    has the empty key, and [write] puts the group's file in the output path
    itself; no [operator=] directory is made. *)
Theorem empty_key_group_goes_to_root :
  write json_loads [[("operator", VStr "")]]
    {| self := column_writer; fs := empty_fs |}
  = (Ok tt,
     {| self := column_writer;
        fs := {| fs_dirs := ["out/rejected"];
                 fs_files := [("out/rejected", [[("operator", VStr "")]])] |} |})
  /\ partition_dir column_writer (sanitize "") = "out/rejected/operator=".
Proof.
  split; reflexivity.
Qed.

(** C10.  [write] on an empty list returns at once: no file is written, no
    directory is made, the writer is unchanged; the same holds of
    [_write_partition] on an empty list, whatever the key. *)
Theorem write_empty_is_noop (st : World) :
  write json_loads [] st = (Ok tt, st)
  /\ forall partition_key : option string,
       _write_partition [] partition_key st = (Ok tt, st).
Proof.
  split; reflexivity.
Qed.

End WriteFacts.

(* ===================================================================== *)
(** * Properties of the metrics reporter                                  *)
(* ===================================================================== *)

Import Reporter.

Section LoadFacts.

Variable path_exists : Path -> bool.
Variable glob : Path -> string -> list Path.
Variable read_parquet : Path -> result DataFrame.

(** The rows of every file, for the files that can be read. *)
Variable tables : Path -> DataFrame.

Local Notation "'files_of'" := (tier_files path_exists glob).

Lemma read_all_ok (files : list Path) :
  (forall f, In f files -> read_parquet f = Ok (tables f)) ->
  read_all read_parquet files = Ok (map tables files).
Proof.
  induction files as [|f rest IH]; intros H; simpl; auto.
  rewrite (H f) by now left. simpl.
  rewrite IH by (intros f' Hin; apply H; now right). reflexivity.
Qed.

(** The block that [load_metrics] repeats for each tier. *)
Lemma load_tier (root : Path) (tier : string) :
  (forall f, In f (files_of root tier) -> read_parquet f = Ok (tables f)) ->
  (if path_exists (div root tier) then
     match glob (div root tier) "*.parquet" with
     | [] => Ok None
     | _ => frames <- read_all read_parquet (glob (div root tier) "*.parquet") ;;
            df <- pd_concat frames ;; Ok (Some df)
     end
   else Ok None)
  = Ok (union_of tables (files_of root tier)).
Proof.
  unfold tier_files. intros H.
  destruct (path_exists (div root tier)); [|reflexivity].
  destruct (glob (div root tier) "*.parquet") as [|f rest] eqn:Hg.
  - reflexivity.
  - rewrite (read_all_ok (f :: rest) H). unfold union_of.
    rewrite flat_map_concat_map. reflexivity.
Qed.

(** C7.  [load_metrics] looks for the files of each tier in [runs],
    [stages] and [operators] under the metrics root and returns, per tier,
    the rows of all the Parquet files found there, one file after the other;
    a tier whose directory does not exist or holds no such file is [None],
    and reading nothing for it cannot fail. *)
Theorem load_metrics_unions_tiers (root : Path) :
  (forall tier f,
      In tier ["runs"; "stages"; "operators"] ->
      In f (files_of root tier) -> read_parquet f = Ok (tables f)) ->
  load_metrics path_exists glob read_parquet (__init__ root)
  = Ok (union_of tables (files_of root "runs"),
        union_of tables (files_of root "stages"),
        union_of tables (files_of root "operators"))
  /\ (forall tier rows,
        union_of tables (files_of root tier) = Some rows ->
        rows = flat_map tables (glob (div root tier) "*.parquet"))
  /\ (forall tier,
        path_exists (div root tier) = false
        \/ glob (div root tier) "*.parquet" = [] ->
        union_of tables (files_of root tier) = None).
Proof.
  intros Hread. split; [|split].
  - unfold load_metrics, __init__. cbn [runs_path stages_path operators_path].
    cbv zeta.
    rewrite (load_tier root "runs")
      by (intros f; apply Hread; simpl; auto).
    rewrite (load_tier root "stages")
      by (intros f; apply Hread; simpl; auto).
    rewrite (load_tier root "operators")
      by (intros f; apply Hread; simpl; auto).
    reflexivity.
  - intros tier rows. unfold tier_files, union_of.
    destruct (path_exists (div root tier)); [|discriminate].
    destruct (glob (div root tier) "*.parquet"); [discriminate|].
    congruence.
  - intros tier [H|H]; unfold tier_files; rewrite H; auto.
    now destruct (path_exists (div root tier)).
Qed.

End LoadFacts.

Section RenderFacts.

(** C8 (amended).  When [plotly] cannot be imported, [_generate_html]
    returns the simple page instead of failing; the renderer is chosen by
    the import tried inside [_generate_html], in the surroundings of the
    call, every time it is called.  Where [plotly] can be imported the
    result is that of the chart renderer, which returns the chart page or
    raises what one of its helper methods raises. *)
Theorem renderer_probed_inside_call
    (helpers : ChartHelpers) (self : MetricsReporter) (env : Env)
    (run_df stage_df operator_df : option DataFrame) :
  _generate_html helpers self env run_df stage_df operator_df
  = render helpers (probe_at_call env) self env run_df stage_df operator_df
  /\ (plotly_installed env = false ->
      _generate_html helpers self env run_df stage_df operator_df
      = Ok (_generate_simple_html self run_df stage_df operator_df))
  /\ (plotly_installed env = true ->
      _generate_html helpers self env run_df stage_df operator_df
      = chart_html helpers self env run_df stage_df operator_df).
Proof.
  unfold _generate_html, import_plotly, probe_at_call, render.
  split; [|split].
  - destruct (plotly_installed env); reflexivity.
  - intros ->. reflexivity.
  - intros ->. reflexivity.
Qed.

(** C8, as stated: the renderer is not fixed when the reporter is created.
    The same reporter gives the chart page where [plotly] can be imported
    and the simple page where it cannot. *)
Lemma renderer_not_selected_at_startup : ~ selected_at_startup sample_helpers.
Proof.
  intros [probe H].
  pose (startup := {| plotly_installed := true; now := "2026-01-01 00:00:00" |}).
  pose proof (H startup ["metrics"]
                {| plotly_installed := true; now := "t" |} None None None) as Hon.
  pose proof (H startup ["metrics"]
                {| plotly_installed := false; now := "t" |} None None None) as Hoff.
  destruct (probe startup); cbv in Hon, Hoff; discriminate.
Qed.

End RenderFacts.

(* ===================================================================== *)
(** * The properties at concrete inputs                                   *)
(* ===================================================================== *)

(** A record of the rejection sink whose details are the JSON text naming
    the rejecting operator. *)
Example rejected_by_filter :
  _extract_partition_key json_loads_sample rejection_writer
    [("id", VInt 7); ("_rejection_details", VStr doc_operator_filter)]
  = Ok "Filter".
Proof. reflexivity. Qed.

(** A batch of four records partitioned by a plain column. *)
Example write_sample_batch :
  write json_loads_sample
    [[("operator", VStr "a/b")]; [("x", VInt 1)];
     [("operator", VStr "a b")]; [("operator", VInt 0)]]
    {| self := column_writer; fs := empty_fs |}
  = (Ok tt,
     {| self := column_writer;
        fs := {| fs_dirs := ["out/rejected"; "out/rejected/operator=a_b";
                             "out/rejected/operator=unknown";
                             "out/rejected/operator=0"];
                 fs_files :=
                   [("out/rejected/operator=a_b",
                     [[("operator", VStr "a/b")]; [("operator", VStr "a b")]]);
                    ("out/rejected/operator=unknown", [[("x", VInt 1)]]);
                    ("out/rejected/operator=0", [[("operator", VInt 0)]])] |} |}).
Proof. vm_compute. reflexivity. Qed.

(** A record whose details are not JSON: the walk answers ["unknown"]. *)
Example details_not_json :
  _extract_partition_key json_loads_sample rejection_writer
    [("_rejection_details", VStr "not json")] = Ok "unknown".
Proof. reflexivity. Qed.

(** C1 with a decoder that raises on the deep text as [json.loads] does. *)
Lemma unresolved_path_can_raise_witness :
  json_loads_deep deep_brackets = Raise (OtherError "RecursionError")
  /\ resolve json_loads_deep (split "."%char "_rejection_details.operator")
       (VDict deep_record) = None
  /\ _extract_partition_key json_loads_deep rejection_writer deep_record
     = Raise (OtherError "RecursionError").
Proof.
  assert (Hdeep : json_loads_deep deep_brackets
                  = Raise (OtherError "RecursionError"))
    by (vm_compute; reflexivity).
  split; [exact Hdeep|].
  apply (unresolved_path_can_raise json_loads_deep Hdeep).
Defined.

(** C2 at the slash of ["a/b c"]. *)
Lemma sanitize_characterwise_witness :
  String.get 1 "a/b c" = Some "/"%char
  /\ String.get 1 (sanitize "a/b c") = Some "_"%char.
Proof.
  split; [reflexivity|].
  apply (proj1 (proj2 (sanitize_characterwise "a/b c")) 1 "/"%char).
  reflexivity.
Defined.

(** C4 at the details of a record rejected by [Filter]. *)
Lemma string_segment_is_parsed_witness :
  _extract_partition_key json_loads_sample rejection_writer
    [("_rejection_details", VStr doc_operator_filter)] = Ok "Filter".
Proof.
  apply (proj2 (string_segment_is_parsed json_loads_sample)
           rejection_writer
           [("_rejection_details", VStr doc_operator_filter)]
           doc_operator_filter
           [("operator", VStr "Filter")] (VStr "Filter")
           eq_refl eq_refl eq_refl eq_refl eq_refl).
Defined.

(** C4, as stated, fails: on details whose [operator] entry is the empty
    string the key is ["unknown"], not the entry's value. *)
Lemma key_is_not_always_the_operator_value :
  ~ (forall (json_loads : string -> result pyval) (r : record) (s : string)
            (m : dict pyval) (v : pyval),
        dict_lookup r "_rejection_details" = Some (VStr s) ->
        json_loads s = Ok (VDict m) ->
        dict_lookup m "operator" = Some v ->
        _extract_partition_key json_loads rejection_writer r = Ok (str v)).
Proof.
  intros H.
  specialize (H json_loads_sample
                [("_rejection_details", VStr doc_operator_empty)]
                doc_operator_empty [("operator", VStr "")] (VStr "")
                eq_refl eq_refl eq_refl).
  vm_compute in H. discriminate.
Qed.

(** C5 at the deep text, with a decoder that raises on it as [json.loads]
    does. *)
Lemma uncaught_decoder_error_leaves_extraction_witness :
  _extract_partition_key json_loads_deep rejection_writer deep_record
  = Raise (OtherError "RecursionError").
Proof.
  apply (uncaught_decoder_error_leaves_extraction json_loads_deep (VInt 4)
           deep_brackets (OtherError "RecursionError")).
  - vm_compute. reflexivity.
  - reflexivity.
Defined.

(** C7 on the sample disk. *)
Lemma load_metrics_unions_tiers_witness :
  load_metrics sample_exists sample_glob sample_read (__init__ ["metrics"])
  = Ok (Some [[("run_id", VInt 1)]; [("run_id", VInt 2)]; [("run_id", VInt 3)]],
        None, None).
Proof.
  apply (proj1 (load_metrics_unions_tiers sample_exists sample_glob sample_read
                  sample_tables ["metrics"]
                  (fun tier f _ _ => eq_refl))).
Defined.

(** C8 in surroundings without [plotly]. *)
Lemma renderer_probed_inside_call_witness :
  _generate_html sample_helpers (__init__ ["metrics"])
    {| plotly_installed := false; now := "2026-01-01 00:00:00" |}
    (Some [[("run_id", VInt 1)]]) None None
  = Ok (SimpleReport [("Run Metrics", Table [[("run_id", VInt 1)]])]).
Proof.
  apply (proj1 (proj2 (renderer_probed_inside_call sample_helpers
                         (__init__ ["metrics"])
                         {| plotly_installed := false;
                            now := "2026-01-01 00:00:00" |}
                         (Some [[("run_id", VInt 1)]]) None None)) eq_refl).
Defined.

(** The same frame where [plotly] can be imported: the run summary reads a
    column the frame does not have, and its [KeyError] leaves
    [_generate_html]. *)
Example chart_page_raises :
  _generate_html sample_helpers (__init__ ["metrics"])
    {| plotly_installed := true; now := "2026-01-01 00:00:00" |}
    (Some [[("run_id", VInt 1)]]) None None
  = Raise KeyError.
Proof. reflexivity. Qed.


(* ===================================================================== *)
(** * Further properties of the writer                                    *)
(* ===================================================================== *)

Section KeyFacts.

Variable json_loads : string -> result pyval.

Local Notation "'extract'" := (_extract_partition_key json_loads).

(** X11.  A sanitized key is safe as a directory name: each of its
    characters is alphanumeric, [-] or [_]; none is a path separator or a
    dot. *)
Theorem sanitized_key_is_path_safe (s : string) (i : nat) (c : ascii) :
  String.get i (sanitize s) = Some c ->
  isalnum c || Ascii.eqb c "-"%char || Ascii.eqb c "_"%char = true
  /\ c <> "/"%char /\ c <> "."%char /\ c <> "\"%char.
Proof.
  revert i. induction s as [|c0 s IH]; intros i H.
  - rewrite sanitize_nil in H. destruct i; discriminate.
  - rewrite sanitize_cons in H. destruct i as [|i]; cbn [String.get] in H.
    + inversion H; subst c.
      pose proof (allowed_safe_char c0) as Ha.
      split; [exact Ha|].
      repeat split; intros Heq; rewrite Heq in Ha; vm_compute in Ha;
        discriminate.
    + apply (IH i H).
Qed.

(** X12.  Sanitization works one character at a time, so it distributes
    over concatenation. *)
Theorem sanitize_app (a b : string) :
  sanitize (a ++ b) = sanitize a ++ sanitize b.
Proof.
  induction a as [|c a IH].
  - reflexivity.
  - cbn [append]. rewrite !sanitize_cons, IH. reflexivity.
Qed.

Lemma split_cons_nonempty (sep : ascii) (s : string) : split sep s <> [].
Proof.
  destruct s as [|c s]; simpl; [discriminate|].
  destruct (Ascii.eqb c sep); [discriminate|].
  destruct (split sep s); discriminate.
Qed.

(** The first segment of a dotted path. *)
Lemma split_first_segment (sep : ascii) (a rest : string) :
  char_in sep a = false ->
  split sep (a ++ String sep rest) = a :: split sep rest.
Proof.
  unfold char_in. induction a as [|c a IH]; intros H.
  - cbn [append split]. now rewrite Ascii.eqb_refl.
  - cbn [list_ascii_of_string existsb] in H.
    apply orb_false_iff in H. destruct H as [Hc Ha].
    cbn [append split]. rewrite Ascii.eqb_sym in Hc. rewrite Hc.
    rewrite (IH Ha). reflexivity.
Qed.

(** X13.  A dotted path descends one level at a time: when the first
    segment [a] of the path [a.rest] holds a mapping, or the JSON text of
    one, the key of the record is the key that the path [rest] gives on that
    mapping. *)
Theorem extract_descends
    (out : string) (by_column : option string) (a rest : string)
    (r : record) (v : pyval) (d : dict pyval) :
  truthy_opt by_column = true ->
  char_in "."%char a = false ->
  rest <> "" ->
  dict_lookup r a = Some v ->
  as_mapping json_loads v = Some d ->
  extract {| full_output_path := out; partition_by := by_column;
             partition_key_extractor := Some (a ++ "." ++ rest) |} r
  = extract {| full_output_path := out; partition_by := by_column;
               partition_key_extractor := Some rest |} d.
Proof.
  intros Hby Ha Hrest Hr Hv.
  rewrite (extract_nested json_loads
             {| full_output_path := out; partition_by := by_column;
                partition_key_extractor := Some (a ++ "." ++ rest) |}
             r (a ++ "." ++ rest) Hby eq_refl)
    by (destruct a; discriminate).
  rewrite (extract_nested json_loads
             {| full_output_path := out; partition_by := by_column;
                partition_key_extractor := Some rest |}
             d rest Hby eq_refl Hrest).
  change (a ++ "." ++ rest) with (a ++ String "."%char rest).
  rewrite (split_first_segment "."%char a rest Ha).
  cbn [walk]. unfold walk_step at 1. rewrite dict_get_lookup, Hr.
  destruct (split "."%char rest) as [|part more] eqn:Hsplit.
  - exfalso. now apply (split_cons_nonempty "."%char rest).
  - unfold as_mapping in Hv.
    destruct v as [| b | n | f | s | items | d']; try discriminate.
    + destruct (json_loads s) as [parsed|e] eqn:Hs; try discriminate.
      destruct parsed as [| b | n | f | s' | items | d']; try discriminate.
      inversion Hv; subst d'.
      rewrite walk_string, Hs. reflexivity.
    + inversion Hv; subst d'. reflexivity.
Qed.

End KeyFacts.

Section InitFacts.

Variable url_to_fs : string -> string.

Lemma rstrip_all (c : ascii) (tail : string) :
  forallb (Ascii.eqb c) (list_ascii_of_string tail) = true ->
  rstrip c tail = "".
Proof.
  induction tail as [|a tail IH]; cbn [list_ascii_of_string forallb rstrip];
    intros H; [reflexivity|].
  apply andb_true_iff in H. destruct H as [Ha Ht].
  rewrite (IH Ht). rewrite Ascii.eqb_sym in Ha. now rewrite Ha.
Qed.

Lemma rstrip_app (c : ascii) (s tail : string) :
  rstrip c tail = "" -> rstrip c (s ++ tail) = rstrip c s.
Proof.
  intros Ht. induction s as [|a s IH].
  - exact Ht.
  - cbn [append rstrip]. now rewrite IH.
Qed.

(** X10.  Trailing slashes of the output path do not matter: the writer
    created for [path] followed by any run of slashes is the writer created
    for [path], on the same file system. *)
Theorem init_ignores_trailing_slashes
    (output_path slashes table_name : string)
    (by_column extractor : option string) (f : FileSystem) :
  forallb (Ascii.eqb "/"%char) (list_ascii_of_string slashes) = true ->
  ParquetWriter.__init__ url_to_fs (output_path ++ slashes) table_name
    by_column extractor f
  = ParquetWriter.__init__ url_to_fs output_path table_name
      by_column extractor f.
Proof.
  intros H. unfold ParquetWriter.__init__.
  rewrite (rstrip_app "/"%char output_path slashes (rstrip_all _ _ H)).
  reflexivity.
Qed.

End InitFacts.

Section EffectFacts.

Variable json_loads : string -> result pyval.

Local Notation "'extract'" := (_extract_partition_key json_loads).
Local Notation "'group''" := (group json_loads).
Local Notation "'safe_key''" := (safe_key_of json_loads).
Local Notation "'write''" := (write json_loads).

Lemma with_dir_keeps (dirs : list string) (path d : string) :
  In d dirs -> In d (with_dir dirs path).
Proof.
  unfold with_dir. destruct (existsb _ dirs); auto.
  intros H. apply in_or_app. now left.
Qed.

Lemma with_dir_has (dirs : list string) (path : string) :
  In path (with_dir dirs path).
Proof.
  unfold with_dir. destruct (existsb (String.eqb path) dirs) eqn:H.
  - apply existsb_exists in H. destruct H as [x [Hx Heq]].
    apply String.eqb_eq in Heq. now subst x.
  - apply in_or_app. right. now left.
Qed.

Lemma made_dirs_keeps (w : ParquetDataWriter) (keys : list string) :
  forall dirs d, In d dirs -> In d (made_dirs w keys dirs).
Proof.
  unfold made_dirs.
  induction keys as [|k keys IH]; intros dirs d H; simpl; auto.
  apply IH. destruct (String.eqb k ""); auto using with_dir_keeps.
Qed.

Lemma made_dirs_has (w : ParquetDataWriter) (keys : list string) :
  forall dirs k, In k keys -> k <> "" ->
  In (partition_dir w k) (made_dirs w keys dirs).
Proof.
  induction keys as [|k0 keys IH]; intros dirs k Hin Hk; [contradiction|].
  destruct Hin as [->|Hin].
  - unfold made_dirs. simpl.
    destruct (String.eqb_spec k ""); [contradiction|].
    apply (made_dirs_keeps w keys). apply with_dir_has.
  - unfold made_dirs. simpl. apply (IH _ k Hin Hk).
Qed.

Lemma add_to_group_nonempty (partitions : dict (list record)) (k : string)
    (r : record) :
  (forall k' rows, In (k', rows) partitions -> rows <> []) ->
  forall k' rows, In (k', rows) (add_to_group partitions k r) -> rows <> [].
Proof.
  induction partitions as [|[k0 rows0] rest IH]; intros Hne k' rows Hin.
  - destruct Hin as [Heq|[]]. inversion Heq. discriminate.
  - simpl in Hin. destruct (String.eqb k0 k).
    + destruct Hin as [Heq|Hin].
      * inversion Heq. destruct rows0; discriminate.
      * apply (Hne k' rows). now right.
    + destruct Hin as [Heq|Hin].
      * inversion Heq; subst. apply (Hne k' rows). now left.
      * apply (IH (fun a b H => Hne a b (or_intror H)) k' rows Hin).
Qed.

(** The loop never leaves an empty group, whatever [json.loads] does. *)
Lemma group_rows_nonempty (w : ParquetDataWriter) (data : list record) :
  forall partitions groups,
    group' w data partitions = Ok groups ->
    (forall k rows, In (k, rows) partitions -> rows <> []) ->
    forall k rows, In (k, rows) groups -> rows <> [].
Proof.
  induction data as [|r rest IH]; intros partitions groups Hrun Hne.
  - simpl in Hrun. inversion Hrun; subst. exact Hne.
  - destruct (group_ok_cons json_loads w r rest partitions groups Hrun)
    as [k [_ Hrest]].
    apply (IH _ _ Hrest). now apply add_to_group_nonempty.
Qed.

(** The loop stops at the first record whose key cannot be extracted. *)
Lemma group_raises (w : ParquetDataWriter) (data : list record) :
  forall partitions r e,
    In r data -> extract w r = Raise e ->
    exists e', group' w data partitions = Raise e'.
Proof.
  induction data as [|r0 rest IH]; intros partitions r e Hin He;
    [contradiction|].
  destruct (extract w r0) as [key|e0] eqn:H0.
  - rewrite (group_cons json_loads w r0 rest partitions (sanitize key))
      by (unfold safe_key_of; now rewrite H0).
    destruct Hin as [->|Hin]; [congruence|].
    apply (IH _ r e Hin He).
  - exists e0. simpl. now rewrite H0.
Qed.

Lemma fs_eta (f : FileSystem) :
  {| fs_dirs := fs_dirs f; fs_files := (fs_files f ++ [])%list |} = f.
Proof. destruct f. simpl. now rewrite app_nil_r. Qed.

(** [write] with partitioning on: the grouping loop, then the groups. *)
Lemma write_partitioned_steps (w : ParquetDataWriter) (f : FileSystem)
    (data : list record) :
  truthy_opt (partition_by w) = true ->
  data <> [] ->
  write' data {| self := w; fs := f |}
  = match group' w data [] with
    | Ok groups =>
        for_each groups
          (fun item => _write_partition (snd item) (Some (fst item)))
          {| self := w; fs := f |}
    | Raise e => (Raise e, {| self := w; fs := f |})
    end.
Proof.
  intros Hby Hdata. destruct data as [|r rest]; [contradiction|].
  unfold write, mbind at 1, get_self. cbn [self]. rewrite Hby.
  unfold mbind, lift. reflexivity.
Qed.

(** What a call of [write] can do to the world, whatever [json.loads]
    does: nothing when it raises; otherwise directories are made for keys
    and files are added, each in the output path or in a directory made. *)
Lemma write_effect (data : list record) (w : ParquetDataWriter)
    (f : FileSystem) :
  (exists e, write' data {| self := w; fs := f |}
             = (Raise e, {| self := w; fs := f |}))
  \/ (exists keys new,
        write' data {| self := w; fs := f |}
        = (Ok tt,
           {| self := w;
              fs := {| fs_dirs := made_dirs w keys (fs_dirs f);
                       fs_files := (fs_files f ++ new)%list |} |})
        /\ forall directory rows,
             In (directory, rows) new ->
             directory = full_output_path w
             \/ exists k, In k keys /\ k <> ""
                          /\ directory = partition_dir w k).
Proof.
  destruct data as [|r rest].
  - right. exists [], []. split; [|intros ? ? []].
    unfold made_dirs. simpl. now rewrite fs_eta.
  - destruct (truthy_opt (partition_by w)) eqn:Hby.
    + rewrite (write_partitioned_steps w f (r :: rest) Hby) by discriminate.
      destruct (group' w (r :: rest) []) as [groups|e] eqn:Hrun.
      * right.
        exists (map fst groups),
               (map (fun item => (target_dir w (fst item), snd item)) groups).
        split.
        -- apply write_groups.
           apply (group_rows_nonempty w _ _ _ Hrun). intros ? ? [].
        -- intros directory rows Hin. apply in_map_iff in Hin.
           destruct Hin as [[k rows'] [Heq Hin]]. simpl in Heq.
           inversion Heq; subst. unfold target_dir.
           destruct (String.eqb_spec k ""); [now left|].
           right. exists k. repeat split; auto.
           apply in_map_iff. now exists (k, rows).
      * left. now exists e.
    + right. exists [], [(full_output_path w, r :: rest)]. split.
      * unfold write, mbind at 1, get_self. cbn [self]. rewrite Hby.
        reflexivity.
      * intros directory rows [Heq|[]]. inversion Heq. now left.
Qed.

(** X3.  [write] only adds: it leaves the writer's attributes alone, keeps
    every file that was there, in place, and keeps every directory.  This
    holds for every batch and whatever [json.loads] does, also when [write]
    raises. *)
Theorem write_only_adds (data : list record) (st : World) :
  self (snd (write' data st)) = self st
  /\ (exists new,
        fs_files (fs (snd (write' data st)))
        = (fs_files (fs st) ++ new)%list)
  /\ (forall d, In d (fs_dirs (fs st)) ->
                In d (fs_dirs (fs (snd (write' data st))))).
Proof.
  destruct st as [w f].
  destruct (write_effect data w f) as [[e H]|[keys [new [H _]]]];
    rewrite H; cbn [snd self fs fs_files fs_dirs].
  - split; [reflexivity|]. split; [|auto].
    exists []. now rewrite app_nil_r.
  - split; [reflexivity|]. split; [now exists new|].
    intros d Hd. now apply made_dirs_keeps.
Qed.

(** X4.  A batch is written whole or not at all as far as keys go: when
    the key of one record cannot be extracted, [write] raises and no file
    or directory of the batch exists, not even for the records before it. *)
Theorem write_fails_before_writing (w : ParquetDataWriter) (f : FileSystem)
    (data : list record) (r : record) (e : exn) :
  truthy_opt (partition_by w) = true ->
  In r data ->
  extract w r = Raise e ->
  exists e', write' data {| self := w; fs := f |}
             = (Raise e', {| self := w; fs := f |}).
Proof.
  intros Hby Hin He.
  destruct (group_raises w data [] r e Hin He) as [e' Hrun].
  exists e'. rewrite (write_partitioned_steps w f data Hby), Hrun.
  - reflexivity.
  - intros ->. contradiction.
Qed.

(** A batch whose records share one key is one group. *)
Lemma group_single_key (w : ParquetDataWriter) (k : string)
    (data : list record) :
  (forall r, In r data -> safe_key' w r = Some k) ->
  forall rows, group' w data [(k, rows)] = Ok [(k, (rows ++ data)%list)].
Proof.
  induction data as [|r rest IH]; intros Hkey rows.
  - simpl. now rewrite app_nil_r.
  - rewrite (group_cons json_loads w r rest _ k) by (apply Hkey; now left).
    simpl. rewrite String.eqb_refl.
    rewrite IH by (intros r' Hr'; apply Hkey; now right).
    now rewrite <- app_assoc.
Qed.

(** X8.  A batch whose records all have the same sanitized key is a single
    group: [write] makes exactly the one call [_write_partition] with the
    whole batch, in its order, and that key; in particular the records whose
    path does not resolve go, together, to the group of ["unknown"]. *)
Theorem write_single_key (w : ParquetDataWriter) (f : FileSystem)
    (data : list record) (k : string) :
  truthy_opt (partition_by w) = true ->
  data <> [] ->
  (forall r, In r data -> safe_key' w r = Some k) ->
  write' data {| self := w; fs := f |}
  = _write_partition data (Some k) {| self := w; fs := f |}.
Proof.
  intros Hby Hdata Hkey.
  rewrite (write_partitioned_steps w f data Hby Hdata).
  destruct data as [|r rest]; [contradiction|].
  rewrite (group_cons json_loads w r rest [] k) by (apply Hkey; now left).
  cbn [add_to_group].
  rewrite (group_single_key w k rest)
    by (intros r' Hr'; apply Hkey; now right).
  cbn [for_each app fst snd]. unfold mbind at 1, ret.
  destruct (_write_partition (r :: rest) (Some k) {| self := w; fs := f |})
    as [[[]|e] st']; reflexivity.
Qed.

End EffectFacts.

Section DirectoryFacts.

Lemma append_cancel (s a b : string) : s ++ a = s ++ b -> a = b.
Proof.
  induction s as [|c s IH]; simpl; intros H; [exact H|].
  inversion H. now apply IH.
Qed.

Lemma append_empty_r (s : string) : s ++ "" = s.
Proof. induction s as [|c s IH]; simpl; [reflexivity | now rewrite IH]. Qed.

(** Distinct keys have distinct directories. *)
Lemma target_dir_inj (w : ParquetDataWriter) (k1 k2 : string) :
  target_dir w k1 = target_dir w k2 -> k1 = k2.
Proof.
  unfold target_dir, partition_dir.
  destruct (String.eqb_spec k1 "") as [->|H1];
    destruct (String.eqb_spec k2 "") as [->|H2]; intros H; auto.
  - rewrite <- (append_empty_r (full_output_path w)) in H at 1.
    apply append_cancel in H. discriminate.
  - rewrite <- (append_empty_r (full_output_path w)) in H at 2.
    apply append_cancel in H. discriminate.
  - apply append_cancel in H. simpl in H. inversion H as [H'].
    apply append_cancel in H'. simpl in H'. now inversion H'.
Qed.

Lemma target_dir_eqb (w : ParquetDataWriter) (k1 k2 : string) :
  String.eqb (target_dir w k1) (target_dir w k2) = String.eqb k1 k2.
Proof.
  destruct (String.eqb_spec k1 k2) as [->|Hne].
  - apply String.eqb_refl.
  - apply String.eqb_neq. intros H. apply Hne. now apply target_dir_inj in H.
Qed.

End DirectoryFacts.

Section LifecycleFacts.

Variable json_loads : string -> result pyval.
Variable url_to_fs : string -> string.

Lemma write_keeps_consistent (data : list record) (st : World) :
  fs_consistent st -> fs_consistent (snd (write json_loads data st)).
Proof.
  destruct st as [w f]. unfold fs_consistent. cbn [self fs].
  intros [Hroot Hfiles].
  destruct (write_effect json_loads data w f)
    as [[e H]|[keys [new [H Hnew]]]]; rewrite H;
    cbn [snd self fs fs_dirs fs_files].
  - now split.
  - split; [now apply made_dirs_keeps|].
    intros directory rows Hin. apply in_app_or in Hin.
    destruct Hin as [Hin|Hin].
    + apply made_dirs_keeps. now apply (Hfiles directory rows).
    + destruct (Hnew directory rows Hin) as [->|[k [Hk [Hne ->]]]].
      * now apply made_dirs_keeps.
      * now apply made_dirs_has.
Qed.

(** X9.  Every file lies in a directory that has been made, for the whole
    life of a writer: if that holds of the file system the writer is created
    on, it holds after [__init__], which makes the output directory, and
    after any sequence of calls of [write], whatever the batches and
    whatever [json.loads] does. *)
Theorem files_lie_in_made_directories
    (output_path table_name : string) (by_column extractor : option string)
    (f : FileSystem) (batches : list (list record)) :
  (forall directory rows,
      In (directory, rows) (fs_files f) -> In directory (fs_dirs f)) ->
  fs_consistent
    (fold_left (fun st data => snd (write json_loads data st)) batches
       (snd (ParquetWriter.__init__ url_to_fs output_path table_name
               by_column extractor f))).
Proof.
  intros Hf.
  assert (Hinit : fs_consistent
            (snd (ParquetWriter.__init__ url_to_fs output_path table_name
                    by_column extractor f))).
  { unfold ParquetWriter.__init__, makedirs, fs_consistent.
    cbn [snd self fs fs_dirs fs_files full_output_path]. split.
    - apply with_dir_has.
    - intros directory rows Hin. apply with_dir_keeps.
      now apply (Hf directory rows). }
  revert Hinit.
  generalize (snd (ParquetWriter.__init__ url_to_fs output_path table_name
                     by_column extractor f)).
  induction batches as [|data batches IH]; intros st Hst; [exact Hst|].
  simpl. apply IH. now apply write_keeps_consistent.
Qed.

End LifecycleFacts.

(* ===================================================================== *)
(** * Further properties of the reporter                                  *)
(* ===================================================================== *)

Section ReportFacts.

Variable path_exists : Path -> bool.
Variable glob : Path -> string -> list Path.
Variable read_parquet : Path -> result DataFrame.

Local Notation "'load'" := (load_metrics path_exists glob read_parquet).
Local Notation "'load_dir'" := (load_tier_dir path_exists glob read_parquet).

Lemma load_metrics_by_tier (self : MetricsReporter) :
  load self
  = (run_df <- load_dir (runs_path self) ;;
     stage_df <- load_dir (stages_path self) ;;
     operator_df <- load_dir (operators_path self) ;;
     Ok (run_df, stage_df, operator_df)).
Proof. reflexivity. Qed.

Lemma read_all_fails (files : list Path) (f : Path) (e : exn) :
  In f files -> read_parquet f = Raise e ->
  exists e', read_all read_parquet files = Raise e'.
Proof.
  induction files as [|f0 rest IH]; intros Hin Hf; [contradiction|].
  simpl. destruct (read_parquet f0) as [df|e0] eqn:H0; [|now exists e0].
  destruct Hin as [->|Hin]; [congruence|].
  destruct (IH Hin Hf) as [e' ->]. now exists e'.
Qed.

Lemma load_dir_fails (dir f : Path) (e : exn) :
  path_exists dir = true -> In f (glob dir "*.parquet") ->
  read_parquet f = Raise e ->
  exists e', load_dir dir = Raise e'.
Proof.
  intros Hex Hin Hf. unfold load_tier_dir. rewrite Hex. cbv zeta.
  destruct (glob dir "*.parquet") as [|f0 rest] eqn:Hg; [contradiction|].
  destruct (read_all_fails (f0 :: rest) f e Hin Hf) as [e' ->].
  now exists e'.
Qed.

(** X15.  One unreadable Parquet file in the directory of any tier makes
    [load_metrics] raise: no tier is returned, not even the tiers that
    could be read. *)
Theorem load_metrics_fails_on_unreadable_file
    (self : MetricsReporter) (dir f : Path) (e : exn) :
  In dir [runs_path self; stages_path self; operators_path self] ->
  path_exists dir = true ->
  In f (glob dir "*.parquet") ->
  read_parquet f = Raise e ->
  exists e', load self = Raise e'.
Proof.
  intros Hdir Hex Hin Hf. rewrite load_metrics_by_tier.
  destruct (load_dir_fails dir f e Hex Hin Hf) as [e0 Hfail].
  destruct (load_dir (runs_path self)) as [run_df|e1] eqn:H1;
    [|now exists e1].
  destruct (load_dir (stages_path self)) as [stage_df|e2] eqn:H2;
    [|now exists e2].
  destruct (load_dir (operators_path self)) as [operator_df|e3] eqn:H3;
    [|now exists e3].
  exfalso. simpl in Hdir.
  destruct Hdir as [<-|[<-|[<-|[]]]]; congruence.
Qed.

End ReportFacts.

Section ModeFacts.

Variable json_loads : string -> result pyval.

Local Notation "'extract'" := (_extract_partition_key json_loads).

Lemma split_single (sep : ascii) (s : string) :
  char_in sep s = false -> split sep s = [s].
Proof.
  unfold char_in. induction s as [|c s IH]; intros H; [reflexivity|].
  cbn [list_ascii_of_string existsb] in H.
  apply orb_false_iff in H. destruct H as [Hc Hs].
  cbn [split]. rewrite Ascii.eqb_sym in Hc. rewrite Hc, (IH Hs). reflexivity.
Qed.

(** X18.  The two modes agree except on falsy values: with a path of a
    single segment, the nested-extractor mode gives the same key as the
    direct-column mode on that column whenever the column is absent, [None]
    or truthy. *)
Theorem modes_agree_on_truthy_values
    (out by_column column : string) (r : record) :
  by_column <> "" -> column <> "" ->
  char_in "."%char column = false ->
  match dict_lookup r column with
  | Some v => is_none v || truthy v
  | None => true
  end = true ->
  extract {| full_output_path := out; partition_by := Some by_column;
             partition_key_extractor := Some column |} r
  = extract {| full_output_path := out; partition_by := Some column;
               partition_key_extractor := None |} r.
Proof.
  intros Hby Hcol Hdot Hv.
  rewrite (extract_nested json_loads
             {| full_output_path := out; partition_by := Some by_column;
                partition_key_extractor := Some column |}
             r column (truthy_opt_of by_column Hby) eq_refl Hcol).
  rewrite (extract_direct json_loads
             {| full_output_path := out; partition_by := Some column;
                partition_key_extractor := None |}
             r column eq_refl Hcol eq_refl).
  rewrite (split_single "."%char column Hdot).
  cbn [walk]. unfold walk_step. rewrite dict_get_lookup.
  destruct (dict_lookup r column) as [v|]; [|reflexivity].
  destruct v as [| b | n | f | s | items | d]; try reflexivity;
    cbn [is_none orb] in Hv; cbv beta iota; rewrite Hv; reflexivity.
Qed.


End ModeFacts.

Section PageFacts.

(** X19.  A tier whose frame has no rows is rendered like a tier that is
    missing, by both renderers: [_generate_html] gives the same page (or
    raises the same exception of a chart helper) when every frame without
    rows is replaced by [None]. *)
Theorem empty_frames_are_not_shown
    (helpers : ChartHelpers) (self : MetricsReporter) (env : Env)
    (run_df stage_df operator_df : option DataFrame) :
  _generate_html helpers self env run_df stage_df operator_df
  = _generate_html helpers self env (shown run_df) (shown stage_df)
      (shown operator_df).
Proof.
  unfold _generate_html, _generate_simple_html, chart_html, shown.
  destruct (import_plotly env) as [[]|e]; [|destruct (except_import e)];
    try reflexivity;
    destruct (has_rows run_df) eqn:H1, (has_rows stage_df) eqn:H2,
             (has_rows operator_df) eqn:H3;
    cbn [has_rows frame]; rewrite ?H1, ?H2, ?H3; reflexivity.
Qed.

End PageFacts.

(* ===================================================================== *)
(** * The further properties at concrete inputs                           *)
(* ===================================================================== *)

(** X1 on the sample batch of the rejection sink. *)
Lemma group_is_grouping_witness :
  is_grouping json_loads_sample rejection_writer sample_batch
    [("Filter", [nth 0 sample_batch []]);
     ("unknown", [nth 1 sample_batch []]);
     ("Dedup_1", [nth 2 sample_batch []])].
Proof.
  apply (group_is_grouping json_loads_sample rejection_writer sample_batch).
  reflexivity.
Defined.

(** X4 on a batch whose second record has details that [json.loads] gives
    up on. *)
Lemma write_fails_before_writing_witness :
  exists e',
    write json_loads_failing
      [[("_rejection_details", VDict [("operator", VStr "Filter")])];
       [("_rejection_details", VStr "[[[[")]]
      {| self := rejection_writer; fs := empty_fs |}
    = (Raise e', {| self := rejection_writer; fs := empty_fs |}).
Proof.
  apply (write_fails_before_writing json_loads_failing rejection_writer
           empty_fs _ [("_rejection_details", VStr "[[[[")]
           (OtherError "RecursionError") eq_refl).
  - right. left. reflexivity.
  - reflexivity.
Defined.

(** X7 on the sample batch followed by a batch of unresolved records. *)
Lemma group_of_concatenation_witness :
  exists groups,
    group json_loads_sample rejection_writer
      (sample_batch ++ unresolved_batch)%list [] = Ok groups
    /\ forall k,
         rows_of groups k
         = (rows_of [("Filter", [nth 0 sample_batch []]);
                     ("unknown", [nth 1 sample_batch []]);
                     ("Dedup_1", [nth 2 sample_batch []])] k
            ++ rows_of [("unknown", unresolved_batch)] k)%list.
Proof.
  apply (group_of_concatenation json_loads_sample rejection_writer
           sample_batch unresolved_batch).
  - reflexivity.
  - reflexivity.
Defined.

(** X8 on a batch none of whose records names its operator. *)
Lemma write_single_key_witness :
  write json_loads_sample unresolved_batch
    {| self := rejection_writer; fs := empty_fs |}
  = _write_partition unresolved_batch (Some "unknown")
      {| self := rejection_writer; fs := empty_fs |}.
Proof.
  apply (write_single_key json_loads_sample rejection_writer empty_fs
           unresolved_batch "unknown" eq_refl).
  - discriminate.
  - intros r [<- | [<- | []]]; reflexivity.
Defined.

(** X9 on a fresh file system and two batches. *)
Lemma files_lie_in_made_directories_witness :
  fs_consistent
    (fold_left (fun st data => snd (write json_loads_sample data st))
       [sample_batch; unresolved_batch]
       (snd (ParquetWriter.__init__ local_url_to_fs "out/" "rejected"
               (Some "operator") (Some "_rejection_details.operator")
               {| fs_dirs := []; fs_files := [] |}))).
Proof.
  apply (files_lie_in_made_directories json_loads_sample local_url_to_fs
           "out/" "rejected" (Some "operator")
           (Some "_rejection_details.operator")
           {| fs_dirs := []; fs_files := [] |}
           [sample_batch; unresolved_batch]).
  intros directory rows [].
Defined.

(** X10 on an output path with two trailing slashes. *)
Lemma init_ignores_trailing_slashes_witness :
  ParquetWriter.__init__ local_url_to_fs ("out" ++ "//") "rejected"
    (Some "operator") None {| fs_dirs := []; fs_files := [] |}
  = ParquetWriter.__init__ local_url_to_fs "out" "rejected"
      (Some "operator") None {| fs_dirs := []; fs_files := [] |}.
Proof.
  apply (init_ignores_trailing_slashes local_url_to_fs "out" "//" "rejected"
           (Some "operator") None {| fs_dirs := []; fs_files := [] |}).
  reflexivity.
Defined.

(** X11 at the slash of ["a/b"]. *)
Lemma sanitized_key_is_path_safe_witness :
  isalnum "_"%char || Ascii.eqb "_"%char "-"%char
    || Ascii.eqb "_"%char "_"%char = true
  /\ "_"%char <> "/"%char /\ "_"%char <> "."%char /\ "_"%char <> "\"%char.
Proof.
  apply (sanitized_key_is_path_safe "a/b" 1 "_"%char).
  vm_compute. reflexivity.
Defined.

(** X13 on a record whose details are JSON text. *)
Lemma extract_descends_witness :
  _extract_partition_key json_loads_sample
    {| full_output_path := "out/rejected"; partition_by := Some "operator";
       partition_key_extractor := Some ("_rejection_details" ++ "." ++ "operator") |}
    [("id", VInt 1); ("_rejection_details", VStr doc_operator_filter)]
  = _extract_partition_key json_loads_sample
      {| full_output_path := "out/rejected"; partition_by := Some "operator";
         partition_key_extractor := Some "operator" |}
      [("operator", VStr "Filter")].
Proof.
  apply (extract_descends json_loads_sample "out/rejected" (Some "operator")
           "_rejection_details" "operator"
           [("id", VInt 1); ("_rejection_details", VStr doc_operator_filter)]
           (VStr doc_operator_filter) [("operator", VStr "Filter")]).
  - reflexivity.
  - reflexivity.
  - discriminate.
  - reflexivity.
  - reflexivity.
Defined.

(** X15 on the disk whose second run file cannot be read. *)
Lemma load_metrics_fails_on_unreadable_file_witness :
  exists e',
    load_metrics sample_exists sample_glob sample_read_broken
      (__init__ ["metrics"]) = Raise e'.
Proof.
  apply (load_metrics_fails_on_unreadable_file sample_exists sample_glob
           sample_read_broken (__init__ ["metrics"])
           ["metrics"; "runs"] ["metrics"; "runs"; "run_2.parquet"]
           (OtherError "ArrowInvalid")).
  - left. reflexivity.
  - reflexivity.
  - right. left. reflexivity.
  - reflexivity.
Defined.

(** X18 on a record whose column holds a name. *)
Lemma modes_agree_on_truthy_values_witness :
  _extract_partition_key json_loads_sample
    {| full_output_path := "out"; partition_by := Some "by";
       partition_key_extractor := Some "operator" |}
    [("operator", VStr "Filter")]
  = _extract_partition_key json_loads_sample
      {| full_output_path := "out"; partition_by := Some "operator";
         partition_key_extractor := None |}
      [("operator", VStr "Filter")].
Proof.
  apply (modes_agree_on_truthy_values json_loads_sample "out" "by" "operator"
           [("operator", VStr "Filter")]).
  - discriminate.
  - discriminate.
  - reflexivity.
  - reflexivity.
Defined.

